(** * server.py: the Stack Overflow for Teams MCP adapter

    A shallow embedding of [src/server.py]: the HTML cleaner [clean_html],
    the API client [http_get] and the five tool handlers, followed by the
    properties of the specification that were checked against them.

    Conventions of the embedding.
    - A Python [str] is the list of its Unicode code points ([pystr]).
    - A value parsed by [resp.json()] is a [value]; a Python [dict] is an
      association list in insertion order with distinct keys.
    - A coroutine is a computation in the monad [M]: it threads the list of
      requests issued so far and either returns or raises.
    - What the Python runtime and the libraries decide, and the source only
      calls, is a parameter of the model: the configuration read from the
      environment, the character reference table of [html.unescape], the
      [repr] of strings and floats, and the text [str(e)] of an exception. *)

From Stdlib Require Import List ZArith NArith Lia Bool String Ascii.
From Stdlib Require Import Floats.SpecFloat.
From Stdlib Require DecimalString.
Import ListNotations.

Set Implicit Arguments.
Local Open Scope list_scope.

(* ===================================================================== *)
(** ** Python strings *)
(* ===================================================================== *)

Module PyStr.

(** A Python [str]: a sequence of code points. *)
Definition pystr := list N.

(** A string literal of the source, written with ASCII characters. *)
Fixpoint lit (s : string) : pystr :=
  match s with
  | EmptyString => []
  | String a s' => N_of_ascii a :: lit s'
  end.

(** The newline of the source's ["\n"]. *)
Definition NL : pystr := [10%N].

(** U+1F517, the link symbol the handlers put before every link. *)
Definition LINK_SYMBOL : pystr := [128279%N].

Fixpoint str_eqb (a b : pystr) : bool :=
  match a, b with
  | [], [] => true
  | x :: a', y :: b' => N.eqb x y && str_eqb a' b'
  | _, _ => false
  end.

(** [s.startswith(p)] *)
Fixpoint startswith (p s : pystr) : bool :=
  match p, s with
  | [], _ => true
  | x :: p', y :: s' => N.eqb x y && startswith p' s'
  | _ :: _, [] => false
  end.

(** [needle in s], as a proposition and as a test. *)
Definition contains (needle s : pystr) : Prop :=
  exists pre post, s = pre ++ needle ++ post.

Fixpoint containsb (needle s : pystr) : bool :=
  startswith needle s ||
  match s with
  | [] => false
  | _ :: s' => containsb needle s'
  end.

(** [sep.join(parts)] *)
Fixpoint join (sep : pystr) (parts : list pystr) : pystr :=
  match parts with
  | [] => []
  | [p] => p
  | p :: rest => p ++ sep ++ join sep rest
  end.

(** [s.replace(old, new)] for a non-empty [old]: the occurrences of [old]
    are found from the left and do not overlap.  [skip] counts the
    characters of an occurrence that are still to be dropped. *)
Fixpoint replace_from (old new : pystr) (skip : nat) (s : pystr) : pystr :=
  match s with
  | [] => []
  | c :: s' =>
      match skip with
      | S k => replace_from old new k s'
      | O =>
          if startswith old s
          then new ++ replace_from old new (List.length old - 1) s'
          else c :: replace_from old new 0 s'
      end
  end.

(** [s.replace(old, new)].  With an empty [old] Python puts [new] before
    every character and at the end. *)
Definition replace (old new s : pystr) : pystr :=
  match old with
  | [] => new ++ flat_map (fun c => c :: new) s
  | _ :: _ => replace_from old new 0 s
  end.

(** The characters [str.strip()] removes: the code points for which
    [str.isspace()] holds. *)
Definition isspace (c : N) : bool :=
  ((9 <=? c) && (c <=? 13) ||
   (28 <=? c) && (c <=? 32) ||
   (c =? 133) || (c =? 160) || (c =? 5760) ||
   (8192 <=? c) && (c <=? 8202) ||
   (c =? 8232) || (c =? 8233) || (c =? 8239) || (c =? 8287) ||
   (c =? 12288))%N.

(** [s.lstrip()] *)
Fixpoint lstrip (s : pystr) : pystr :=
  match s with
  | [] => []
  | c :: s' => if isspace c then lstrip s' else s
  end.

(** [s.rstrip()] *)
Definition rstrip (s : pystr) : pystr := rev (lstrip (rev s)).

(** [s.strip()] *)
Definition strip (s : pystr) : pystr := rstrip (lstrip s).

(** [str(z)] for an [int]. *)
Definition str_of_int (z : Z) : pystr :=
  lit (DecimalString.NilZero.string_of_int (Z.to_int z)).

End PyStr.
Import PyStr.

(* ===================================================================== *)
(** ** Python values, exceptions and the runtime *)
(* ===================================================================== *)

Module PyValue.

(** What [json.loads] builds: [None], [bool], [int], [float], [str], [list]
    and [dict] with [str] keys.  A [dict] keeps its insertion order. *)
#[warnings="-register-all"]
Inductive value : Type :=
| VNone
| VBool (b : bool)
| VInt (z : Z)
| VFloat (f : spec_float)
| VStr (s : pystr)
| VList (l : list value)
| VDict (d : list (pystr * value)).

(** [type(v).__name__] *)
Definition type_name (v : value) : pystr :=
  match v with
  | VNone => lit "NoneType"
  | VBool _ => lit "bool"
  | VInt _ => lit "int"
  | VFloat _ => lit "float"
  | VStr _ => lit "str"
  | VList _ => lit "list"
  | VDict _ => lit "dict"
  end.

(** The exceptions the program can meet.  All of them derive from
    [Exception], the class the handlers catch. *)
Inductive exn : Type :=
| TransportError (msg : pystr)
    (** [client.get] failed: DNS, connection, timeout, unsupported URL *)
| HTTPStatusError (status : Z)
    (** [resp.raise_for_status()] on a status outside 200..299 *)
| JSONDecodeError
    (** [resp.json()] on a body that is not JSON *)
| AttributeError (ty attr : pystr)
    (** ['ty' object has no attribute 'attr'] *)
| NotIterable (ty : pystr)
    (** [TypeError]: ['ty' object is not iterable] *)
| NotSubscriptable (ty : pystr)
    (** [TypeError]: ['ty' object is not subscriptable] *)
| BadIndex (ty : pystr)
    (** [TypeError]: the indices of a [ty] must be integers *)
| NotAContainer (ty : pystr)
    (** [TypeError]: [x in v] for a [v] that is no container *)
| ExpectedString (ty : pystr)
    (** [TypeError]: [re.sub] on something that is no string *)
| IndexError
    (** [list index out of range], [string index out of range] *)
| KeyError (key : value)
    (** [d[key]] for a missing key *).

(** The outcome of evaluating an expression or running a statement. *)
Inductive outcome (A : Type) : Type :=
| Return (a : A)
| Raise (e : exn).
Arguments Return {A} a.
Arguments Raise {A} e.

(** What the source takes from its environment and from the libraries. *)
Record runtime : Type := {
  PAT : option pystr;                    (** [os.environ.get("API_KEY")] *)
  TEAM : option pystr;                   (** [os.environ.get("TEAM")] *)
  BASE_URL : option pystr;               (** [os.environ.get("BASE_URL")] *)
  charref_sub : pystr -> pystr;
    (** [_charref.sub(_replace_charref, s)] of the [html] module: the
        substitution of the character references of a string *)
  repr_str : pystr -> pystr;             (** [repr(s)] for a [str] *)
  repr_float : spec_float -> pystr;      (** [repr(f)] for a [float] *)
  exc_str : exn -> pystr                 (** [str(e)] for an exception *)
}.

(** [bool(v)], the test of [if v] and [not v]. *)
Definition truthy (v : value) : bool :=
  match v with
  | VNone => false
  | VBool b => b
  | VInt z => negb (Z.eqb z 0)
  | VFloat (S754_zero _) => false
  | VFloat _ => true
  | VStr s => match s with [] => false | _ => true end
  | VList l => match l with [] => false | _ => true end
  | VDict d => match d with [] => false | _ => true end
  end.

(** [v == s] for a string literal [s]. *)
Definition eq_str (v : value) (s : pystr) : bool :=
  match v with
  | VStr t => str_eqb t s
  | _ => false
  end.

(** The entry of a [dict] under a key. *)
Fixpoint lookup (d : list (pystr * value)) (key : pystr) : option value :=
  match d with
  | [] => None
  | (k, v) :: d' => if str_eqb k key then Some v else lookup d' key
  end.

(** [v.get(key, default)] *)
Definition py_get (v : value) (key : pystr) (default : value) : outcome value :=
  match v with
  | VDict d =>
      match lookup d key with
      | Some x => Return x
      | None => Return default
      end
  | _ => Raise (AttributeError (type_name v) (lit "get"))
  end.

(** [v[key]] for a string [key]. *)
Definition py_getitem (v : value) (key : pystr) : outcome value :=
  match v with
  | VDict d =>
      match lookup d key with
      | Some x => Return x
      | None => Raise (KeyError (VStr key))
      end
  | VStr _ | VList _ => Raise (BadIndex (type_name v))
  | _ => Raise (NotSubscriptable (type_name v))
  end.

(** [v[0]] *)
Definition py_first (v : value) : outcome value :=
  match v with
  | VList (x :: _) => Return x
  | VStr (c :: _) => Return (VStr [c])
  | VList [] | VStr [] => Raise IndexError
  | VDict _ => Raise (KeyError (VInt 0))
  | _ => Raise (NotSubscriptable (type_name v))
  end.

(** The elements [for x in v] goes through. *)
Definition py_iter (v : value) : outcome (list value) :=
  match v with
  | VList l => Return l
  | VStr s => Return (map (fun c => VStr [c]) s)
  | VDict d => Return (map (fun kv => VStr (fst kv)) d)
  | _ => Raise (NotIterable (type_name v))
  end.

Section Formatting.
Variable rt : runtime.

(** [repr(v)] *)
Fixpoint py_repr (v : value) : pystr :=
  match v with
  | VNone => lit "None"
  | VBool true => lit "True"
  | VBool false => lit "False"
  | VInt z => str_of_int z
  | VFloat f => repr_float rt f
  | VStr s => repr_str rt s
  | VList l => lit "[" ++ join (lit ", ") (map py_repr l) ++ lit "]"
  | VDict d =>
      lit "{" ++
      join (lit ", ")
           (map (fun kv : pystr * value =>
                  match kv with
                  | (k, x) => repr_str rt k ++ lit ": " ++ py_repr x
                  end) d) ++
      lit "}"
  end.

(** [str(v)], what an f-string puts for [{v}]. *)
Definition py_str (v : value) : pystr :=
  match v with
  | VStr s => s
  | _ => py_repr v
  end.

(** [{x}] in an f-string for a configuration value, which is [None] when
    the variable is not set. *)
Definition fmt_env (x : option pystr) : pystr :=
  match x with
  | Some s => s
  | None => lit "None"
  end.

End Formatting.

End PyValue.
Import PyValue.

(* ===================================================================== *)
(** ** Coroutines: requests issued so far, and a result or an exception *)
(* ===================================================================== *)

Module Effects.

(** The arguments of one [client.get(url, headers=, params=, timeout=)]. *)
Record request : Type := {
  req_url : pystr;
  req_headers : list (pystr * option pystr);
  req_params : list (pystr * value);
  req_timeout : Z
}.

(** An [httpx.Response], as far as the program reads it: its status code
    and what [resp.json()] gives, [None] for a body that is not JSON. *)
Record http_response : Type := {
  status_code : Z;
  json_body : option value
}.

(** How the network answers a request: [client.get] raises, or it returns
    a response. *)
Inductive reply : Type :=
| Failed (msg : pystr)
| Responded (resp : http_response).

(** The requests issued so far, oldest first. *)
Definition trace := list request.

(** The upstream service and the network: the reply to a request, which
    may depend on the requests made before it. *)
Definition network := trace -> request -> reply.

Definition M (A : Type) : Type := trace -> outcome A * trace.

Definition ret {A} (a : A) : M A := fun tr => (Return a, tr).

Definition bind {A B} (m : M A) (k : A -> M B) : M B :=
  fun tr =>
    match m tr with
    | (Return a, tr') => k a tr'
    | (Raise e, tr') => (Raise e, tr')
    end.

(** An expression that may raise, evaluated inside a coroutine. *)
Definition lift {A} (o : outcome A) : M A := fun tr => (o, tr).

(** [try: body  except Exception as e: handler(e)] *)
Definition try_except {A} (body : M A) (handler : exn -> M A) : M A :=
  fun tr =>
    match body tr with
    | (Return a, tr') => (Return a, tr')
    | (Raise e, tr') => handler e tr'
    end.

(** Sequencing of expressions that may raise. *)
Definition obind {A B} (o : outcome A) (k : A -> outcome B) : outcome B :=
  match o with
  | Return a => k a
  | Raise e => Raise e
  end.

(** [for x in xs: body], with [s] the variables the body assigns. *)
Fixpoint for_each {S : Type} (xs : list value)
         (body : value -> S -> outcome S) (s : S) : outcome S :=
  match xs with
  | [] => Return s
  | x :: xs' =>
      match body x s with
      | Return s' => for_each xs' body s'
      | Raise e => Raise e
      end
  end.

End Effects.
Import Effects.

Declare Scope py_scope.
Delimit Scope py_scope with py.
Notation "x <- m ;; k" := (bind m (fun x => k))
  (at level 61, m at next level, right associativity) : py_scope.
Notation "x <~ o ;; k" := (obind o (fun x => k))
  (at level 61, o at next level, right associativity) : py_scope.
Local Open Scope py_scope.

(* ===================================================================== *)
(** ** server.py *)
(* ===================================================================== *)

Module Server.

Section Program.
Variable rt : runtime.
Variable net : network.

(** [html.unescape]: a string without ['&'] is returned as it is, any other
    goes through the substitution of character references. *)
Definition unescape (s : pystr) : pystr :=
  if existsb (N.eqb 38) s then charref_sub rt s else s.

(** [clean_html(html_text)] for a [str]. *)
Definition clean_html (html_text : pystr) : pystr :=
  let text := unescape html_text in
  let text := replace (lit "</p>") (NL ++ NL) (replace (lit "<p>") [] text) in
  let text := replace (lit "</code>") (lit "`") (replace (lit "<code>") (lit "`") text) in
  let text := replace (lit "</strong>") (lit "**") (replace (lit "<strong>") (lit "**") text) in
  let text := replace (lit "</em>") (lit "*") (replace (lit "<em>") (lit "*") text) in
  strip text.

(** [clean_html(v)] for whatever the response holds in a field: the source
    does not test the type.  For a value that is no [str], [html.unescape]
    fails at its test ['&' not in s], or at the substitution, or it returns
    the value and [text.replace] fails. *)
Definition call_clean_html (v : value) : outcome pystr :=
  match v with
  | VStr s => Return (clean_html s)
  | VList l =>
      if existsb (fun x => eq_str x (lit "&")) l
      then Raise (ExpectedString (type_name v))
      else Raise (AttributeError (type_name v) (lit "replace"))
  | VDict d =>
      if existsb (fun kv => str_eqb (fst kv) (lit "&")) d
      then Raise (ExpectedString (type_name v))
      else Raise (AttributeError (type_name v) (lit "replace"))
  | _ => Raise (NotAContainer (type_name v))
  end.

(** [client.get(url, headers=headers, params=params, timeout=10)] *)
Definition client_get (req : request) : M http_response :=
  fun tr =>
    (match net tr req with
     | Failed msg => Raise (TransportError msg)
     | Responded resp => Return resp
     end, tr ++ [req]).

(** [resp.raise_for_status()] *)
Definition raise_for_status (resp : http_response) : outcome unit :=
  if (200 <=? status_code resp)%Z && (status_code resp <=? 299)%Z
  then Return tt
  else Raise (HTTPStatusError (status_code resp)).

(** [resp.json()] *)
Definition resp_json (resp : http_response) : outcome value :=
  match json_body resp with
  | Some j => Return j
  | None => Raise JSONDecodeError
  end.

Definition http_get (url : pystr) (params : list (pystr * value)) : M value :=
  let headers := [(lit "X-API-Access-Token", PAT rt)] in
  resp <- client_get {| req_url := url; req_headers := headers;
                        req_params := params; req_timeout := 10 |} ;;
  _ <- lift (raise_for_status resp) ;;
  lift (resp_json resp).

(** A configuration value as the value of a query parameter. *)
Definition env_value (x : option pystr) : value :=
  match x with
  | Some s => VStr s
  | None => VNone
  end.

(** [except Exception as e: return f"HTTP Error: {str(e)}"] *)
Definition http_error (e : exn) : M pystr :=
  ret (lit "HTTP Error: " ++ exc_str rt e).

(** [f"https://{TEAM}.stackoverflowteams.com/c/{TEAM}/questions/{qid}"] *)
Definition question_url (qid : value) : pystr :=
  lit "https://" ++ fmt_env (TEAM rt) ++ lit ".stackoverflowteams.com/c/" ++
  fmt_env (TEAM rt) ++ lit "/questions/" ++ py_str rt qid.

(** Each handler is [try: data = await http_get(url, params); ...] with no
    further request after the last [await]: what follows it is written as
    a function of the data, [.._body], that returns or raises. *)

(** *** 1. Search questions *)

Definition search_questions_params (query : pystr) : list (pystr * value) :=
  [ (lit "order", VStr (lit "desc"));
    (lit "sort", VStr (lit "relevance"));
    (lit "q", VStr query);
    (lit "team", env_value (TEAM rt));
    (lit "pagesize", VInt 5);
    (lit "filter", VStr (lit "!9_bDE(fI5")) ].

Definition search_questions_url : pystr :=
  fmt_env (BASE_URL rt) ++ lit "/search/advanced".

(** The body of [for q in data["items"]]. *)
Definition search_questions_item (q : value) (results : list pystr)
  : outcome (list pystr) :=
  title_field <~ py_get q (lit "title") (VStr []) ;;
  title <~ call_clean_html title_field ;;
  link <~ py_get q (lit "link") (VStr (lit "#")) ;;
  body_field <~ py_get q (lit "body") (VStr []) ;;
  body <~ call_clean_html body_field ;;
  Return (results ++
          [lit "### " ++ title ++ NL ++ body ++ NL ++ LINK_SYMBOL ++
           lit " [View Question](" ++ py_str rt link ++ lit ")"]).

Definition search_questions_body (data : value) : outcome pystr :=
  found <~ py_get data (lit "items") VNone ;;
  if negb (truthy found) then Return (lit "No relevant questions found.")
  else
    items <~ py_getitem data (lit "items") ;;
    qs <~ py_iter items ;;
    results <~ for_each qs search_questions_item [] ;;
    Return (join (NL ++ NL) results).

Definition stackoverflow_search_questions (query : pystr) : M pystr :=
  let params := search_questions_params query in
  let url := search_questions_url in
  try_except
    (data <- http_get url params ;;
     lift (search_questions_body data))
    http_error.

(** *** 2. Search answers *)

Definition search_answers_params (query : pystr) : list (pystr * value) :=
  [ (lit "order", VStr (lit "desc"));
    (lit "sort", VStr (lit "relevance"));
    (lit "q", VStr query);
    (lit "team", env_value (TEAM rt));
    (lit "pagesize", VInt 5) ].

Definition search_answers_url : pystr :=
  fmt_env (BASE_URL rt) ++ lit "/search/excerpts".

(** One step of [[i for i in ... if i.get("item_type") == "answer"]]. *)
Definition keep_answer (i : value) (items : list value) : outcome (list value) :=
  item_type <~ py_get i (lit "item_type") VNone ;;
  Return (if eq_str item_type (lit "answer") then items ++ [i] else items).

(** The body of [for ans in items]. *)
Definition search_answers_item (ans : value) (results : list pystr)
  : outcome (list pystr) :=
  excerpt_field <~ py_get ans (lit "excerpt") (VStr []) ;;
  excerpt <~ call_clean_html excerpt_field ;;
  qid <~ py_get ans (lit "question_id") VNone ;;
  let link := if truthy qid then question_url qid else lit "#" in
  Return (results ++
          [lit "**Answer Excerpt:**" ++ NL ++ excerpt ++ NL ++ LINK_SYMBOL ++
           lit " [View Answer](" ++ link ++ lit ")"]).

Definition search_answers_body (data : value) : outcome pystr :=
  all_items <~ py_get data (lit "items") (VList []) ;;
  candidates <~ py_iter all_items ;;
  items <~ for_each candidates keep_answer [] ;;
  match items with
  | [] => Return (lit "No relevant answers found.")
  | _ :: _ =>
      results <~ for_each items search_answers_item [] ;;
      Return (join (NL ++ NL) results)
  end.

Definition stackoverflow_search_answers (query : pystr) : M pystr :=
  let params := search_answers_params query in
  let url := search_answers_url in
  try_except
    (data <- http_get url params ;;
     lift (search_answers_body data))
    http_error.

(** *** 3. Search excerpts (questions and answers) *)

Definition search_excerpts_params (query : pystr) : list (pystr * value) :=
  [ (lit "order", VStr (lit "desc"));
    (lit "sort", VStr (lit "relevance"));
    (lit "q", VStr query);
    (lit "team", env_value (TEAM rt));
    (lit "pagesize", VInt 5) ].

Definition search_excerpts_url : pystr :=
  fmt_env (BASE_URL rt) ++ lit "/search/excerpts".

(** The body of [for item in data["items"]]. *)
Definition search_excerpts_item (item : value) (results : list pystr)
  : outcome (list pystr) :=
  item_type <~ py_get item (lit "item_type") (VStr (lit "unknown")) ;;
  title_field <~ py_get item (lit "title") (VStr []) ;;
  title <~ call_clean_html title_field ;;
  excerpt_field <~ py_get item (lit "excerpt") (VStr []) ;;
  excerpt <~ call_clean_html excerpt_field ;;
  qid <~ py_get item (lit "question_id") VNone ;;
  let link := if truthy qid then question_url qid else lit "#" in
  Return (results ++
          [lit "**Type:** " ++ py_str rt item_type ++ NL ++
           lit "**Title:** " ++ title ++ NL ++ excerpt ++ NL ++ LINK_SYMBOL ++
           lit " [View Full Post](" ++ link ++ lit ")"]).

Definition search_excerpts_body (data : value) : outcome pystr :=
  found <~ py_get data (lit "items") VNone ;;
  if negb (truthy found) then Return (lit "No relevant excerpts found.")
  else
    items <~ py_getitem data (lit "items") ;;
    its <~ py_iter items ;;
    results <~ for_each its search_excerpts_item [] ;;
    Return (join (NL ++ NL) results).

Definition stackoverflow_search_excerpts (query : pystr) : M pystr :=
  let params := search_excerpts_params query in
  let url := search_excerpts_url in
  try_except
    (data <- http_get url params ;;
     lift (search_excerpts_body data))
    http_error.

(** *** 4. Fetch full question by ID *)

Definition fetch_params : list (pystr * value) :=
  [ (lit "team", env_value (TEAM rt));
    (lit "filter", VStr (lit "!9_bDE(fI5")) ].

Definition q_url (question_id : pystr) : pystr :=
  fmt_env (BASE_URL rt) ++ lit "/questions/" ++ question_id.

Definition a_url (question_id : pystr) : pystr :=
  fmt_env (BASE_URL rt) ++ lit "/questions/" ++ question_id ++ lit "/answers".

(** The body of [for ans in answers]. *)
Definition fetch_answer (ans : value) (response : pystr) : outcome pystr :=
  body_field <~ py_get ans (lit "body") (VStr []) ;;
  body <~ call_clean_html body_field ;;
  score <~ py_get ans (lit "score") (VInt 0) ;;
  Return (response ++
          NL ++ lit "**Score:** " ++ py_str rt score ++ NL ++ body ++
          NL ++ NL ++ lit "---").

Definition fetch_question_body (q_data a_data : value) : outcome pystr :=
  found <~ py_get q_data (lit "items") VNone ;;
  if negb (truthy found) then Return (lit "Question not found.")
  else
    q_items <~ py_getitem q_data (lit "items") ;;
    question <~ py_first q_items ;;
    title_field <~ py_get question (lit "title") (VStr []) ;;
    title <~ call_clean_html title_field ;;
    body_field <~ py_get question (lit "body") (VStr []) ;;
    body <~ call_clean_html body_field ;;
    let response := lit "## " ++ title ++ NL ++ NL ++ body ++ NL ++ NL in
    answers <~ py_get a_data (lit "items") (VList []) ;;
    if truthy answers then
      let response := response ++ NL ++ NL ++ lit "### Top Answers:" ++ NL in
      anss <~ py_iter answers ;;
      for_each anss fetch_answer response
    else
      Return (response ++ NL ++ NL ++ lit "_No answers found._").

Definition stackoverflow_fetch_question_by_id (question_id : pystr) : M pystr :=
  try_except
    (q_data <- http_get (q_url question_id) fetch_params ;;
     a_data <- http_get (a_url question_id) fetch_params ;;
     lift (fetch_question_body q_data a_data))
    http_error.

(** *** 5. Search questions by tags *)

Definition search_by_tags_params (tags : pystr) : list (pystr * value) :=
  [ (lit "order", VStr (lit "desc"));
    (lit "sort", VStr (lit "activity"));
    (lit "tagged", VStr tags);
    (lit "team", env_value (TEAM rt));
    (lit "pagesize", VInt 5) ].

Definition search_by_tags_url : pystr :=
  fmt_env (BASE_URL rt) ++ lit "/questions".

(** The body of [for q in data["items"]]. *)
Definition search_by_tags_item (q : value) (results : list pystr)
  : outcome (list pystr) :=
  title_field <~ py_get q (lit "title") (VStr []) ;;
  title <~ call_clean_html title_field ;;
  link <~ py_get q (lit "link") (VStr (lit "#")) ;;
  Return (results ++
          [lit "**" ++ title ++ lit "**" ++ NL ++ LINK_SYMBOL ++
           lit " [View Question](" ++ py_str rt link ++ lit ")"]).

Definition search_by_tags_body (data : value) : outcome pystr :=
  found <~ py_get data (lit "items") VNone ;;
  if negb (truthy found) then Return (lit "No questions found for the given tags.")
  else
    items <~ py_getitem data (lit "items") ;;
    qs <~ py_iter items ;;
    results <~ for_each qs search_by_tags_item [] ;;
    Return (join (NL ++ NL) results).

Definition stackoverflow_search_by_tags (tags : pystr) : M pystr :=
  let params := search_by_tags_params tags in
  let url := search_by_tags_url in
  try_except
    (data <- http_get url params ;;
     lift (search_by_tags_body data))
    http_error.

(** *** The tools registered with [mcp.tool] *)

Inductive tool : Type :=
| SearchQuestions
| SearchAnswers
| SearchExcerpts
| FetchQuestionById
| SearchByTags.

(** A call of a tool with its one string argument. *)
Definition call_tool (t : tool) (arg : pystr) : M pystr :=
  match t with
  | SearchQuestions => stackoverflow_search_questions arg
  | SearchAnswers => stackoverflow_search_answers arg
  | SearchExcerpts => stackoverflow_search_excerpts arg
  | FetchQuestionById => stackoverflow_fetch_question_by_id arg
  | SearchByTags => stackoverflow_search_by_tags arg
  end.

End Program.

End Server.
Import Server.

(* ===================================================================== *)
(** ** The vocabulary of the specification *)
(* ===================================================================== *)

Module Spec.

(** The status codes [raise_for_status] accepts. *)
Definition is_2xx (status : Z) : Prop := (200 <= status <= 299)%Z.

(** The request answered with a 2xx status and the JSON body [data]. *)
Definition succeeds (r : reply) (data : value) : Prop :=
  exists status,
    is_2xx status /\
    r = Responded {| status_code := status; json_body := Some data |}.

(** The API client fails on a reply: a transport error, a status that is
    not 2xx, or a body that is not JSON. *)
Definition api_fails (r : reply) : Prop :=
  match r with
  | Failed _ => True
  | Responded resp => ~ is_2xx (status_code resp) \/ json_body resp = None
  end.

(** The requests [reqs], issued in this order after [tr], are all answered
    with success, with the bodies [datas]. *)
Fixpoint answered (net : network) (tr : trace) (reqs : list request)
         (datas : list value) : Prop :=
  match reqs, datas with
  | [], [] => True
  | r :: reqs', d :: datas' =>
      succeeds (net tr r) d /\ answered net (tr ++ [r]) reqs' datas'
  | _, _ => False
  end.

(** What [http_get] returns or raises for a reply. *)
Definition reply_outcome (r : reply) : outcome value :=
  match r with
  | Failed msg => Raise (TransportError msg)
  | Responded resp =>
      obind (raise_for_status resp) (fun _ => resp_json resp)
  end.

(** The empty-result message of each tool (section 4.3 of the
    specification). *)
Definition sentinel (t : tool) : pystr :=
  match t with
  | SearchQuestions => lit "No relevant questions found."
  | SearchAnswers => lit "No relevant answers found."
  | SearchExcerpts => lit "No relevant excerpts found."
  | FetchQuestionById => lit "Question not found."
  | SearchByTags => lit "No questions found for the given tags."
  end.

(** The mark of an answer block in the result of
    [fetch_question_by_id]. *)
Definition SCORE : pystr := lit "**Score:**".

(** The tag rules of the HTML cleaner, in the order of section 4.1. *)
Definition tag_rules : list (pystr * pystr) :=
  [ (lit "<p>", []);            (lit "</p>", NL ++ NL);
    (lit "<code>", lit "`");    (lit "</code>", lit "`");
    (lit "<strong>", lit "**"); (lit "</strong>", lit "**");
    (lit "<em>", lit "*");      (lit "</em>", lit "*") ].

Definition apply_rule (text : pystr) (rule : pystr * pystr) : pystr :=
  replace (fst rule) (snd rule) text.

(** [d.get(key, default)] for a [dict] [d]. *)
Definition field (d : list (pystr * value)) (key : pystr) (default : value)
  : value :=
  match lookup d key with
  | Some v => v
  | None => default
  end.

(** A text field: its string, the empty string when it is absent. *)
Definition text (d : list (pystr * value)) (key : pystr) : pystr :=
  match lookup d key with
  | Some (VStr s) => s
  | _ => []
  end.

(** The field is absent or holds a string. *)
Definition is_text (d : list (pystr * value)) (key : pystr) : bool :=
  match lookup d key with
  | None | Some (VStr _) => true
  | Some _ => false
  end.

Definition is_dict (v : value) : bool :=
  match v with
  | VDict _ => true
  | _ => false
  end.

Definition as_dict (v : value) : list (pystr * value) :=
  match v with
  | VDict d => d
  | _ => []
  end.

(** The object [v] whose text fields [keys] are absent or strings. *)
Definition item_ok (keys : list pystr) (v : value) : bool :=
  is_dict v && forallb (is_text (as_dict v)) keys.

(** The response is an object whose [items] is absent or a list. *)
Definition has_item_list (data : value) : bool :=
  match data with
  | VDict d =>
      match lookup d (lit "items") with
      | None | Some (VList _) => true
      | Some _ => false
      end
  | _ => false
  end.

(** The response is an object whose [items] is the empty list. *)
Definition has_no_items (data : value) : bool :=
  match data with
  | VDict d =>
      match lookup d (lit "items") with
      | Some (VList []) => true
      | _ => false
      end
  | _ => false
  end.

(** The tools that construct the link of an item from its
    [question_id]. *)
Definition constructs_link (t : tool) : bool :=
  match t with
  | SearchAnswers | SearchExcerpts => true
  | _ => false
  end.

(** The [items] of a response, none when the field is absent. *)
Definition items_of (data : value) : list value :=
  match data with
  | VDict d =>
      match lookup d (lit "items") with
      | Some (VList l) => l
      | _ => []
      end
  | _ => []
  end.

(** [item_type == "answer"] *)
Definition is_answer (i : value) : bool :=
  eq_str (field (as_dict i) (lit "item_type") VNone) (lit "answer").

Section Rendering.
Variable rt : runtime.

(** The request [http_get(url, params)] makes. *)
Definition api_request (url : pystr) (params : list (pystr * value)) : request :=
  {| req_url := url;
     req_headers := [(lit "X-API-Access-Token", PAT rt)];
     req_params := params;
     req_timeout := 10 |}.

(** The two requests of [fetch_question_by_id]. *)
Definition question_request (question_id : pystr) : request :=
  api_request (q_url rt question_id) (fetch_params rt).

Definition answers_request (question_id : pystr) : request :=
  api_request (a_url rt question_id) (fetch_params rt).

(** The requests of each tool, in the order they are issued. *)
Definition tool_requests (t : tool) (arg : pystr) : list request :=
  match t with
  | SearchQuestions =>
      [api_request (search_questions_url rt) (search_questions_params rt arg)]
  | SearchAnswers =>
      [api_request (search_answers_url rt) (search_answers_params rt arg)]
  | SearchExcerpts =>
      [api_request (search_excerpts_url rt) (search_excerpts_params rt arg)]
  | FetchQuestionById => [question_request arg; answers_request arg]
  | SearchByTags =>
      [api_request (search_by_tags_url rt) (search_by_tags_params rt arg)]
  end.

(** Section 4.1 as a table of rules applied in one pass each. *)
Definition spec_clean_html (s : pystr) : pystr :=
  strip (fold_left apply_rule tag_rules (unescape rt s)).

(** The link of an item of the excerpt search. *)
Definition item_link (i : value) : pystr :=
  match lookup (as_dict i) (lit "question_id") with
  | Some qid => if truthy qid then question_url rt qid else lit "#"
  | None => lit "#"
  end.

(** The link as property 7 of the specification words it: the pattern
    when [question_id] is present, ["#"] when it is absent. *)
Definition claimed_item_link (i : value) : pystr :=
  match lookup (as_dict i) (lit "question_id") with
  | Some qid => question_url rt qid
  | None => lit "#"
  end.

(** The per-item renderings of the table of section 4.3. *)
Definition question_entry (i : value) : pystr :=
  lit "### " ++ clean_html rt (text (as_dict i) (lit "title")) ++ NL ++
  clean_html rt (text (as_dict i) (lit "body")) ++ NL ++ LINK_SYMBOL ++
  lit " [View Question](" ++
  py_str rt (field (as_dict i) (lit "link") (VStr (lit "#"))) ++ lit ")".

(** The entries of the two tools that construct the link, for a given
    link. *)
Definition answer_entry_with (i : value) (link : pystr) : pystr :=
  lit "**Answer Excerpt:**" ++ NL ++
  clean_html rt (text (as_dict i) (lit "excerpt")) ++ NL ++ LINK_SYMBOL ++
  lit " [View Answer](" ++ link ++ lit ")".

Definition excerpt_entry_with (i : value) (link : pystr) : pystr :=
  lit "**Type:** " ++
  py_str rt (field (as_dict i) (lit "item_type") (VStr (lit "unknown"))) ++ NL ++
  lit "**Title:** " ++ clean_html rt (text (as_dict i) (lit "title")) ++ NL ++
  clean_html rt (text (as_dict i) (lit "excerpt")) ++ NL ++ LINK_SYMBOL ++
  lit " [View Full Post](" ++ link ++ lit ")".

Definition answer_entry (i : value) : pystr :=
  answer_entry_with i (item_link i).

Definition excerpt_entry (i : value) : pystr :=
  excerpt_entry_with i (item_link i).

Definition tag_entry (i : value) : pystr :=
  lit "**" ++ clean_html rt (text (as_dict i) (lit "title")) ++ lit "**" ++ NL ++
  LINK_SYMBOL ++ lit " [View Question](" ++
  py_str rt (field (as_dict i) (lit "link") (VStr (lit "#"))) ++ lit ")".

Definition question_header (i : value) : pystr :=
  lit "## " ++ clean_html rt (text (as_dict i) (lit "title")) ++ NL ++ NL ++
  clean_html rt (text (as_dict i) (lit "body")) ++ NL ++ NL.

Definition answer_block (i : value) : pystr :=
  NL ++ lit "**Score:** " ++
  py_str rt (field (as_dict i) (lit "score") (VInt 0)) ++ NL ++
  clean_html rt (text (as_dict i) (lit "body")) ++ NL ++ NL ++ lit "---".

(** The question entry as the invariant of section 3 has it, with the
    link cleaned like the title and the body. *)
Definition claimed_question_entry (i : value) : pystr :=
  lit "### " ++ clean_html rt (text (as_dict i) (lit "title")) ++ NL ++
  clean_html rt (text (as_dict i) (lit "body")) ++ NL ++ LINK_SYMBOL ++
  lit " [View Question](" ++
  clean_html rt (py_str rt (field (as_dict i) (lit "link") (VStr (lit "#")))) ++
  lit ")".

(** The entries of a result list, with a blank line between them. *)
Definition listing (empty : pystr) (entry : value -> pystr) (items : list value)
  : pystr :=
  match items with
  | [] => empty
  | _ :: _ => join (NL ++ NL) (map entry items)
  end.

(** The result of each tool on the bodies of its successful requests. *)
Definition expected_output (t : tool) (datas : list value) : pystr :=
  match t, datas with
  | SearchQuestions, [data] =>
      listing (sentinel t) question_entry (items_of data)
  | SearchAnswers, [data] =>
      listing (sentinel t) answer_entry (filter is_answer (items_of data))
  | SearchExcerpts, [data] =>
      listing (sentinel t) excerpt_entry (items_of data)
  | FetchQuestionById, [q_data; a_data] =>
      match items_of q_data with
      | [] => sentinel t
      | question :: _ =>
          question_header question ++
          match items_of a_data with
          | [] => NL ++ NL ++ lit "_No answers found._"
          | answers =>
              NL ++ NL ++ lit "### Top Answers:" ++ NL ++
              List.concat (map answer_block answers)
          end
      end
  | SearchByTags, [data] =>
      listing (sentinel t) tag_entry (items_of data)
  | _, _ => []
  end.

(** The items a tool renders: [search_answers] keeps the answers. *)
Definition rendered_items (t : tool) (data : value) : list value :=
  match t with
  | SearchAnswers => filter is_answer (items_of data)
  | _ => items_of data
  end.

(** The entry of an item for the tools that construct its link. *)
Definition entry_with_link (t : tool) (i : value) (link : pystr) : pystr :=
  match t with
  | SearchAnswers => answer_entry_with i link
  | SearchExcerpts => excerpt_entry_with i link
  | _ => []
  end.

(** What [try: ... except Exception as e] makes of the outcome of its
    body. *)
Definition caught (o : outcome pystr) : pystr :=
  match o with
  | Return s => s
  | Raise e => lit "HTTP Error: " ++ exc_str rt e
  end.

(** What follows the requests of a tool, on the bodies they returned. *)
Definition tool_body (t : tool) (datas : list value) : outcome pystr :=
  match t, datas with
  | SearchQuestions, [data] => search_questions_body rt data
  | SearchAnswers, [data] => search_answers_body rt data
  | SearchExcerpts, [data] => search_excerpts_body rt data
  | FetchQuestionById, [q_data; a_data] => fetch_question_body rt q_data a_data
  | SearchByTags, [data] => search_by_tags_body rt data
  | _, _ => Return []
  end.

End Rendering.

(** The responses on which no field has an unexpected type: the items are
    objects and the text fields a tool cleans are strings. *)
Definition well_formed (t : tool) (datas : list value) : bool :=
  match t, datas with
  | SearchQuestions, [data] =>
      has_item_list data &&
      forallb (item_ok [lit "title"; lit "body"]) (items_of data)
  | SearchAnswers, [data] =>
      has_item_list data &&
      forallb is_dict (items_of data) &&
      forallb (item_ok [lit "excerpt"]) (filter is_answer (items_of data))
  | SearchExcerpts, [data] =>
      has_item_list data &&
      forallb (item_ok [lit "title"; lit "excerpt"]) (items_of data)
  | FetchQuestionById, [q_data; a_data] =>
      has_item_list q_data &&
      match items_of q_data with
      | [] => true
      | question :: _ =>
          item_ok [lit "title"; lit "body"] question &&
          has_item_list a_data &&
          forallb (item_ok [lit "body"]) (items_of a_data)
      end
  | SearchByTags, [data] =>
      has_item_list data &&
      forallb (item_ok [lit "title"]) (items_of data)
  | _, _ => false
  end.

End Spec.
Import Spec.

(* ===================================================================== *)
(** ** Concrete configurations and networks *)
(* ===================================================================== *)

Module Scenario.

(** A runtime with every variable set.  Character references are left as
    they are and [repr] is schematic: no scenario below depends on them. *)
Definition acme : runtime :=
  {| PAT := Some (lit "secret-token");
     TEAM := Some (lit "acme");
     BASE_URL := Some (lit "https://api.example.test/2.3");
     charref_sub := fun s => s;
     repr_str := fun s => lit "'" ++ s ++ lit "'";
     repr_float := fun _ => lit "0.0";
     exc_str := fun e =>
       match e with
       | TransportError msg => msg
       | HTTPStatusError status => lit "status " ++ str_of_int status
       | _ => lit "error"
       end |}.

(** A 200 response with a JSON body. *)
Definition ok (data : value) : reply :=
  Responded {| status_code := 200; json_body := Some data |}.

(** A response with the given status and an empty JSON object. *)
Definition status (code : Z) : reply :=
  Responded {| status_code := code; json_body := Some (VDict []) |}.

(** The network that answers the n-th request with the n-th reply of a
    script, and refuses any further request. *)
Definition scripted (replies : list reply) : network :=
  fun tr _ => nth (List.length tr) replies (Failed (lit "connection refused")).

(** A response body with the given items. *)
Definition with_items (items : list value) : value :=
  VDict [(lit "items", VList items)].

(** A question whose link holds markup. *)
Definition marked_up_link_item : value :=
  VDict [ (lit "title", VStr (lit "T"));
          (lit "link", VStr (lit "<strong>l</strong>")) ].

(** An answer excerpt whose [question_id] is present and is 0. *)
Definition zero_id_item : value :=
  VDict [ (lit "item_type", VStr (lit "answer"));
          (lit "excerpt", VStr (lit "E"));
          (lit "question_id", VInt 0) ].

(** An answer excerpt of question 7. *)
Definition answer_item : value :=
  VDict [ (lit "item_type", VStr (lit "answer"));
          (lit "excerpt", VStr (lit "<p>Use <code>lia</code></p>"));
          (lit "question_id", VInt 7) ].

(** A question excerpt; its [excerpt] is not even a string. *)
Definition question_item : value :=
  VDict [ (lit "item_type", VStr (lit "question"));
          (lit "excerpt", VInt 3);
          (lit "question_id", VInt 7) ].

(** An excerpt without [question_id]. *)
Definition anonymous_item : value :=
  VDict [ (lit "item_type", VStr (lit "answer"));
          (lit "title", VStr (lit "A"));
          (lit "excerpt", VStr (lit "E")) ].

(** An excerpt whose [question_id] is [null]. *)
Definition null_id_item : value :=
  VDict [ (lit "item_type", VStr (lit "answer"));
          (lit "title", VStr (lit "A"));
          (lit "excerpt", VStr (lit "E"));
          (lit "question_id", VNone) ].

(** A question with a title and a body. *)
Definition full_question : value :=
  VDict [ (lit "title", VStr (lit "How to <em>prove</em> it?"));
          (lit "body", VStr (lit "<p>By induction.</p>")) ].

End Scenario.
Import Scenario.

(* ===================================================================== *)
(** ** Further vocabulary: what the code keeps, ignores and refuses *)
(* ===================================================================== *)

Module Behaviour.

(** The tag strings that [clean_html] replaces by something: all of the
    table but [<p>], which it deletes. *)
Definition replaced_tags : list pystr :=
  [ lit "</p>"; lit "<code>"; lit "</code>"; lit "<strong>"; lit "</strong>";
    lit "<em>"; lit "</em>" ].

(** No character of [a] occurs in [b]. *)
Definition disjoint (a b : pystr) : bool :=
  forallb (fun x => negb (existsb (N.eqb x) b)) a.

(** A string with no whitespace at either end. *)
Definition trimmed (s : pystr) : Prop :=
  match s with
  | [] => True
  | c :: _ => isspace c = false
  end /\
  match rev s with
  | [] => True
  | c :: _ => isspace c = false
  end.

(** The network as a call sees it that starts after the requests [tr]. *)
Definition after (net : network) (tr : trace) : network :=
  fun tr' req => net (tr ++ tr') req.

(** The requests a call of a tool issues: those of the tool, and for
    [fetch_question_by_id] the first alone when it fails. *)
Definition requests_issued (rt : runtime) (net : network) (t : tool)
           (arg : pystr) (tr : trace) : list request :=
  match t with
  | FetchQuestionById =>
      match reply_outcome (net tr (question_request rt arg)) with
      | Return _ => [question_request rt arg; answers_request rt arg]
      | Raise _ => [question_request rt arg]
      end
  | _ => tool_requests rt t arg
  end.

(** The tools that test [not data.get("items")] and render every item of
    [data["items"]]. *)
Definition is_listing_tool (t : tool) : bool :=
  match t with
  | SearchQuestions | SearchExcerpts | SearchByTags => true
  | _ => false
  end.

(** The text fields of an item that a tool passes to [clean_html]. *)
Definition text_keys (t : tool) : list pystr :=
  match t with
  | SearchQuestions => [lit "title"; lit "body"]
  | SearchAnswers => [lit "excerpt"]
  | SearchExcerpts => [lit "title"; lit "excerpt"]
  | FetchQuestionById => [lit "title"; lit "body"]
  | SearchByTags => [lit "title"]
  end.

(** The values [for x in v] refuses. *)
Definition not_iterable (v : value) : bool :=
  match v with
  | VNone | VBool _ | VInt _ | VFloat _ => true
  | _ => false
  end.

(** A string that does not begin with the [H] of ["HTTP Error: "]. *)
Definition no_error_start (s : pystr) : Prop :=
  match s with
  | [] => True
  | c :: _ => c <> 72%N
  end.

(** A list of entries whose first entry is not empty and does not begin
    with [H]. *)
Definition no_error_head (results : list pystr) : Prop :=
  match results with
  | [] => True
  | r :: _ => r <> [] /\ no_error_start r
  end.

End Behaviour.
Import Behaviour.

(* ===================================================================== *)
(** ** Lemmas on strings *)
(* ===================================================================== *)

Arguments lit : simpl never.

Section StringLemmas.

Lemma startswith_app (p s : pystr) : startswith p (p ++ s) = true.
Proof.
  induction p as [|x p IH]; simpl; [reflexivity|].
  now rewrite N.eqb_refl, IH.
Qed.

Lemma startswith_split (p s : pystr) :
  startswith p s = true -> exists rest, s = p ++ rest.
Proof.
  revert s; induction p as [|x p IH]; intros s H.
  - now exists s.
  - destruct s as [|y s]; simpl in H; [discriminate|].
    apply andb_true_iff in H as [Hxy Hps].
    apply N.eqb_eq in Hxy; subst y.
    destruct (IH _ Hps) as [rest ->].
    now exists rest.
Qed.

Lemma contains_cons (needle s : pystr) (c : N) :
  contains needle s -> contains needle (c :: s).
Proof.
  intros (pre & post & ->). now exists (c :: pre), post.
Qed.

Lemma containsb_here (needle s : pystr) :
  startswith needle s = true -> containsb needle s = true.
Proof.
  intros H. destruct s; simpl; now rewrite H.
Qed.

Lemma containsb_spec (needle s : pystr) :
  containsb needle s = true <-> contains needle s.
Proof.
  split.
  - induction s as [|c s IH]; simpl; intros H.
    + rewrite orb_false_r in H.
      destruct (startswith_split _ _ H) as [rest ->].
      now exists [], rest.
    + apply orb_true_iff in H as [H|H].
      * destruct (startswith_split _ _ H) as [rest ->].
        now exists [], rest.
      * now apply contains_cons, IH.
  - intros (pre & post & ->).
    induction pre as [|c pre IH].
    + rewrite app_nil_l. apply containsb_here, startswith_app.
    + simpl. simpl in IH. rewrite IH. apply orb_true_r.
Qed.

Lemma not_contains_spec (needle s : pystr) :
  containsb needle s = false -> ~ contains needle s.
Proof.
  intros H C. apply containsb_spec in C. congruence.
Qed.

(** A string that holds no occurrence of [old] is left as it is. *)
Lemma replace_absent (old new s : pystr) :
  old <> [] -> ~ contains old s -> replace old new s = s.
Proof.
  intros Hold. destruct old as [|o old]; [congruence|].
  unfold replace.
  induction s as [|c s IH]; intros Hs; [reflexivity|].
  cbn [replace_from].
  destruct (startswith (o :: old) (c :: s)) eqn:E.
  - exfalso. apply Hs, containsb_spec, containsb_here, E.
  - f_equal. apply IH. intros C. now apply Hs, contains_cons.
Qed.

(** An occurrence of [needle] cannot lie across a character that is not
    in [needle]. *)
Lemma contains_across (needle a b : pystr) (c : N) :
  ~ In c needle ->
  contains needle (a ++ c :: b) -> contains needle a \/ contains needle b.
Proof.
  intros Hc (pre & post & E).
  apply app_eq_app in E as [l [[E1 E2]|[E1 E2]]].
  - (* a = pre ++ l, needle ++ post = l ++ c :: b *)
    symmetry in E2. apply app_eq_app in E2 as [m [[E3 E4]|[E3 E4]]].
    + (* l = needle ++ m *)
      left. exists pre, m. now rewrite E1, E3.
    + (* needle = l ++ m, c :: b = m ++ post *)
      destruct m as [|x m].
      * left. exists pre, []. rewrite E1, E3. now rewrite !app_nil_r.
      * simpl in E4. injection E4 as Hx _.
        exfalso. apply Hc. rewrite E3, Hx. apply in_or_app. right. now left.
  - (* pre = a ++ l, c :: b = l ++ needle ++ post *)
    destruct l as [|x l].
    + simpl in E2. destruct needle as [|y needle].
      * left. exists a, []. now rewrite app_nil_r.
      * simpl in E2. injection E2 as Hy _.
        exfalso. apply Hc. rewrite Hy. now left.
    + simpl in E2. injection E2 as _ Hb.
      right. exists l, post. exact Hb.
Qed.

Lemma contains_nil_inv (needle : pystr) :
  contains needle [] -> needle = [].
Proof.
  intros (pre & post & E).
  symmetry in E. apply app_eq_nil in E as [_ E].
  now apply app_eq_nil in E as [E _].
Qed.

End StringLemmas.

(* ===================================================================== *)
(** ** Lemmas on the API client and on the shape of the handlers *)
(* ===================================================================== *)

Section ClientLemmas.
Variable rt : runtime.
Variable net : network.

Lemma is_2xx_test (status : Z) :
  ((200 <=? status)%Z && (status <=? 299)%Z = true) <-> is_2xx status.
Proof.
  unfold is_2xx. rewrite andb_true_iff, !Z.leb_le. tauto.
Qed.

Lemma reply_outcome_succeeds (r : reply) (data : value) :
  succeeds r data <-> reply_outcome r = Return data.
Proof.
  split.
  - intros (status & H2 & ->). unfold reply_outcome, raise_for_status; simpl.
    apply is_2xx_test in H2. now rewrite H2.
  - destruct r as [msg|[status body]]; simpl; [discriminate|].
    unfold raise_for_status, resp_json; simpl.
    destruct ((200 <=? status)%Z && (status <=? 299)%Z) eqn:E; simpl;
      [|discriminate].
    destruct body as [j|]; [|discriminate].
    intros H; injection H as ->.
    exists status. split; [now apply is_2xx_test|reflexivity].
Qed.

Lemma reply_outcome_fails (r : reply) :
  api_fails r <-> exists e, reply_outcome r = Raise e.
Proof.
  destruct r as [msg|[status body]]; simpl.
  - split; [now eexists|trivial].
  - unfold raise_for_status, resp_json; simpl.
    destruct ((200 <=? status)%Z && (status <=? 299)%Z) eqn:E; simpl.
    + apply is_2xx_test in E.
      destruct body as [j|]; split.
      * intros [H|H]; [contradiction|discriminate].
      * intros [e H]; discriminate.
      * now eexists.
      * now right.
    + split; [now eexists|].
      intros _. left. intros H. apply is_2xx_test in H. congruence.
Qed.

(** One call of the API client: one request more, and the outcome the
    reply decides. *)
Lemma http_get_run (url : pystr) (params : list (pystr * value)) (tr : trace) :
  http_get rt net url params tr =
    (reply_outcome (net tr (api_request rt url params)),
     tr ++ [api_request rt url params]).
Proof.
  unfold http_get, bind, client_get, lift, reply_outcome, api_request.
  destruct (net tr _) as [msg|resp]; [reflexivity|].
  simpl. now destruct (raise_for_status resp).
Qed.

(** A handler with one request. *)
Lemma one_request_run (url : pystr) (params : list (pystr * value))
      (body : value -> outcome pystr) (tr : trace) :
  try_except (data <- http_get rt net url params ;; lift (body data))
             (http_error rt) tr =
    (Return (caught rt (obind (reply_outcome (net tr (api_request rt url params)))
                              body)),
     tr ++ [api_request rt url params]).
Proof.
  unfold try_except, bind. rewrite http_get_run.
  destruct (reply_outcome _) as [data|e]; simpl; [|reflexivity].
  unfold lift. now destruct (body data).
Qed.

(** The handler with two requests: the second is issued when the first
    has returned, whatever it returned. *)
Lemma fetch_run (question_id : pystr) (tr : trace) :
  stackoverflow_fetch_question_by_id rt net question_id tr =
    let q_req := api_request rt (q_url rt question_id) (fetch_params rt) in
    let a_req := api_request rt (a_url rt question_id) (fetch_params rt) in
    match reply_outcome (net tr q_req) with
    | Raise e => (Return (caught rt (Raise e)), tr ++ [q_req])
    | Return q_data =>
        (Return (caught rt (obind (reply_outcome (net (tr ++ [q_req]) a_req))
                                  (fetch_question_body rt q_data))),
         (tr ++ [q_req]) ++ [a_req])
    end.
Proof.
  unfold stackoverflow_fetch_question_by_id, try_except, bind.
  rewrite http_get_run.
  destruct (reply_outcome _) as [q_data|e]; simpl; [|reflexivity].
  rewrite http_get_run.
  destruct (reply_outcome _) as [a_data|e]; simpl; [|reflexivity].
  unfold lift. now destruct (fetch_question_body rt q_data a_data).
Qed.

(** When all its requests succeed a tool issues exactly its requests and
    returns what its body makes of the data. *)
Lemma call_tool_answered (t : tool) (arg : pystr) (tr : trace)
      (datas : list value) :
  answered net tr (tool_requests rt t arg) datas ->
  call_tool rt net t arg tr =
    (Return (caught rt (tool_body rt t datas)), tr ++ tool_requests rt t arg).
Proof.
  destruct t; simpl; intros H;
    try (destruct datas as [|data [|? ?]]; simpl in H; try tauto;
         destruct H as [H _]; apply reply_outcome_succeeds in H;
         unfold stackoverflow_search_questions, stackoverflow_search_answers,
           stackoverflow_search_excerpts, stackoverflow_search_by_tags;
         rewrite one_request_run, H; reflexivity).
  destruct datas as [|q_data [|a_data [|? ?]]]; simpl in H; try tauto.
  destruct H as (Hq & Ha & _).
  apply reply_outcome_succeeds in Hq, Ha.
  rewrite fetch_run. cbv zeta. unfold question_request, answers_request in *.
  rewrite Hq, Ha. simpl.
  now rewrite <- app_assoc.
Qed.

End ClientLemmas.

(* ===================================================================== *)
(** ** Lemmas on the loops and on the bodies of the handlers *)
(* ===================================================================== *)

Section BodyLemmas.
Variable rt : runtime.

(** A loop whose body never raises on the elements of the list is a fold
    of its effect on the variables. *)
Lemma for_each_fold (S : Type) (body : value -> S -> outcome S)
      (step : S -> value -> S) (good : value -> bool) :
  (forall x s, good x = true -> body x s = Return (step s x)) ->
  forall xs s, forallb good xs = true ->
    for_each xs body s = Return (fold_left step xs s).
Proof.
  intros Hbody. induction xs as [|x xs IH]; intros s Hxs; [reflexivity|].
  simpl in Hxs. apply andb_true_iff in Hxs as [Hx Hxs].
  simpl. rewrite (Hbody _ _ Hx). now apply IH.
Qed.

Lemma fold_append (A B : Type) (f : A -> B) (xs : list A) (acc : list B) :
  fold_left (fun results x => results ++ [f x]) xs acc = acc ++ map f xs.
Proof.
  revert acc. induction xs as [|x xs IH]; intros acc; simpl.
  - now rewrite app_nil_r.
  - rewrite IH, <- app_assoc. reflexivity.
Qed.

Lemma fold_concat (A : Type) (f : A -> pystr) (xs : list A) (acc : pystr) :
  fold_left (fun response x => response ++ f x) xs acc =
    acc ++ List.concat (map f xs).
Proof.
  revert acc. induction xs as [|x xs IH]; intros acc; simpl.
  - now rewrite app_nil_r.
  - rewrite IH, <- app_assoc. reflexivity.
Qed.

Lemma fold_keep (A : Type) (keep : A -> bool) (xs acc : list A) :
  fold_left (fun items x => if keep x then items ++ [x] else items) xs acc =
    acc ++ filter keep xs.
Proof.
  revert acc. induction xs as [|x xs IH]; intros acc; simpl.
  - now rewrite app_nil_r.
  - rewrite IH. destruct (keep x); [|reflexivity].
    now rewrite <- app_assoc.
Qed.

(** A loop that appends one entry for each element. *)
Lemma for_each_entries (body : value -> list pystr -> outcome (list pystr))
      (entry : value -> pystr) (good : value -> bool) :
  (forall x results, good x = true ->
     body x results = Return (results ++ [entry x])) ->
  forall xs, forallb good xs = true ->
    for_each xs body [] = Return (map entry xs).
Proof.
  intros Hbody xs Hxs.
  rewrite (for_each_fold body (fun results x => results ++ [entry x]) good Hbody _ _ Hxs).
  now rewrite fold_append.
Qed.

Lemma py_get_dict (d : list (pystr * value)) (key : pystr) (default : value) :
  py_get (VDict d) key default = Return (field d key default).
Proof.
  unfold py_get, field. now destruct (lookup d key).
Qed.

(** Cleaning a text field that is absent or a string. *)
Lemma clean_text_field (d : list (pystr * value)) (key : pystr) :
  is_text d key = true ->
  call_clean_html rt (field d key (VStr [])) =
    Return (clean_html rt (text d key)).
Proof.
  unfold is_text, field, text.
  destruct (lookup d key) as [[]|]; simpl; congruence.
Qed.

Lemma item_link_dict (d : list (pystr * value)) :
  (if truthy (field d (lit "question_id") VNone)
   then question_url rt (field d (lit "question_id") VNone)
   else lit "#") = item_link rt (VDict d).
Proof.
  unfold item_link, field; simpl.
  now destruct (lookup d (lit "question_id")).
Qed.

Ltac item_step :=
  intros x acc Hx; unfold item_ok in Hx;
  destruct x as [| | | | | |d]; try discriminate Hx;
  simpl in Hx; repeat rewrite andb_true_iff in Hx;
  repeat match type of Hx with _ /\ _ => destruct Hx as [? Hx] end.

Lemma search_questions_item_ok (x : value) (results : list pystr) :
  item_ok [lit "title"; lit "body"] x = true ->
  search_questions_item rt x results = Return (results ++ [question_entry rt x]).
Proof.
  revert x results. item_step.
  unfold search_questions_item, question_entry.
  rewrite !py_get_dict; simpl obind.
  rewrite !clean_text_field by assumption. reflexivity.
Qed.

Lemma search_answers_item_ok (x : value) (results : list pystr) :
  item_ok [lit "excerpt"] x = true ->
  search_answers_item rt x results = Return (results ++ [answer_entry rt x]).
Proof.
  revert x results. item_step.
  unfold search_answers_item, answer_entry, answer_entry_with.
  rewrite !py_get_dict; simpl obind.
  rewrite !clean_text_field by assumption. simpl obind.
  now rewrite item_link_dict.
Qed.

Lemma search_excerpts_item_ok (x : value) (results : list pystr) :
  item_ok [lit "title"; lit "excerpt"] x = true ->
  search_excerpts_item rt x results = Return (results ++ [excerpt_entry rt x]).
Proof.
  revert x results. item_step.
  unfold search_excerpts_item, excerpt_entry, excerpt_entry_with.
  rewrite !py_get_dict; simpl obind.
  rewrite !clean_text_field by assumption. simpl obind.
  now rewrite item_link_dict.
Qed.

Lemma search_by_tags_item_ok (x : value) (results : list pystr) :
  item_ok [lit "title"] x = true ->
  search_by_tags_item rt x results = Return (results ++ [tag_entry rt x]).
Proof.
  revert x results. item_step.
  unfold search_by_tags_item, tag_entry.
  rewrite !py_get_dict; simpl obind.
  rewrite !clean_text_field by assumption. reflexivity.
Qed.

Lemma fetch_answer_ok (x : value) (response : pystr) :
  item_ok [lit "body"] x = true ->
  fetch_answer rt x response = Return (response ++ answer_block rt x).
Proof.
  revert x response. item_step.
  unfold fetch_answer, answer_block.
  rewrite !py_get_dict; simpl obind.
  rewrite !clean_text_field by assumption. reflexivity.
Qed.

Lemma keep_answer_ok (x : value) (items : list value) :
  is_dict x = true ->
  keep_answer x items = Return (if is_answer x then items ++ [x] else items).
Proof.
  destruct x; try discriminate. intros _.
  unfold keep_answer, is_answer. now rewrite py_get_dict.
Qed.

(** The list comprehension of [search_answers] is a filter. *)
Lemma keep_answers (xs : list value) :
  forallb is_dict xs = true ->
  for_each xs keep_answer [] = Return (filter is_answer xs).
Proof.
  intros Hxs.
  rewrite (for_each_fold keep_answer
             (fun items x => if is_answer x then items ++ [x] else items)
             is_dict keep_answer_ok _ _ Hxs).
  now rewrite fold_keep.
Qed.

(** The handlers that test [not data.get("items")] and then go through
    [data["items"]]. *)
Lemma listing_body (data : value) (empty : pystr)
      (body : value -> list pystr -> outcome (list pystr))
      (entry : value -> pystr) (good : value -> bool) :
  (forall x results, good x = true ->
     body x results = Return (results ++ [entry x])) ->
  has_item_list data = true ->
  forallb good (items_of data) = true ->
  (found <~ py_get data (lit "items") VNone ;;
   if negb (truthy found) then Return empty
   else
     items <~ py_getitem data (lit "items") ;;
     xs <~ py_iter items ;;
     results <~ for_each xs body [] ;;
     Return (join (NL ++ NL) results))
  = Return (listing empty entry (items_of data)).
Proof.
  intros Hbody Hdata Hitems.
  destruct data as [| | | | | |d]; try discriminate Hdata.
  unfold has_item_list in Hdata. unfold items_of in *.
  rewrite py_get_dict. unfold field, py_getitem.
  destruct (lookup d (lit "items")) as [[| | | | |l|]|]; try discriminate Hdata;
    [|reflexivity].
  destruct l as [|x l]; [reflexivity|].
  cbn [obind truthy negb py_iter].
  rewrite (for_each_entries body entry good Hbody _ Hitems).
  reflexivity.
Qed.

(** On a well-formed response the body of a tool returns the rendering of
    section 4.3. *)
Lemma tool_body_well_formed (t : tool) (datas : list value) :
  well_formed t datas = true ->
  tool_body rt t datas = Return (expected_output rt t datas).
Proof.
  destruct t; cbn [well_formed tool_body expected_output].
  - destruct datas as [|data [|? ?]]; try discriminate.
    rewrite andb_true_iff. intros [H1 H2].
    now apply (listing_body _ _ _ _ _ (search_questions_item_ok)).
  - destruct datas as [|data [|? ?]]; try discriminate.
    rewrite !andb_true_iff. intros [[H1 H2] H3].
    unfold search_answers_body.
    destruct data as [| | | | | |d]; try discriminate H1.
    unfold has_item_list in H1. unfold items_of in *.
    rewrite py_get_dict. unfold field.
    destruct (lookup d (lit "items")) as [[| | | | |l|]|]; try discriminate H1;
      [|reflexivity].
    cbn [obind py_iter]. rewrite (keep_answers _ H2). cbn [obind].
    destruct (filter is_answer l) as [|a answers] eqn:E; [reflexivity|].
    rewrite (for_each_entries _ _ _ search_answers_item_ok _ H3).
    reflexivity.
  - destruct datas as [|data [|? ?]]; try discriminate.
    rewrite andb_true_iff. intros [H1 H2].
    now apply (listing_body _ _ _ _ _ (search_excerpts_item_ok)).
  - destruct datas as [|q_data [|a_data [|? ?]]]; try discriminate.
    rewrite andb_true_iff. intros [H1 H2].
    unfold fetch_question_body.
    destruct q_data as [| | | | | |qd]; try discriminate H1.
    unfold has_item_list in H1. unfold items_of in H2 |- *.
    rewrite py_get_dict. unfold field at 1. unfold py_getitem.
    destruct (lookup qd (lit "items")) as [[| | | | |ql|]|]; try discriminate H1;
      [|reflexivity].
    destruct ql as [|question ql]; [reflexivity|].
    rewrite !andb_true_iff in H2. destruct H2 as [[Hq Ha] Hanswers].
    cbn [obind truthy negb py_first].
    unfold item_ok in Hq.
    destruct question as [| | | | | |q]; try discriminate Hq.
    simpl in Hq. rewrite !andb_true_iff in Hq. destruct Hq as (Ht & Hb & _).
    rewrite !py_get_dict. cbn [obind].
    rewrite (clean_text_field _ _ Ht). cbn [obind].
    rewrite (clean_text_field _ _ Hb). cbn [obind].
    destruct a_data as [| | | | | |ad]; try discriminate Ha.
    unfold has_item_list in Ha. unfold items_of in Hanswers |- *.
    rewrite py_get_dict. unfold field at 1.
    unfold question_header, as_dict.
    destruct (lookup ad (lit "items")) as [[| | | | |al|]|]; try discriminate Ha.
    + destruct al as [|a al].
      * cbn [obind truthy]. now rewrite <- !app_assoc.
      * cbn [obind truthy py_iter].
        rewrite (for_each_fold _ (fun response x => response ++ answer_block rt x)
                   _ fetch_answer_ok _ _ Hanswers).
        rewrite fold_concat. now rewrite <- !app_assoc.
    + cbn [obind truthy]. now rewrite <- !app_assoc.
  - destruct datas as [|data [|? ?]]; try discriminate.
    rewrite andb_true_iff. intros [H1 H2].
    now apply (listing_body _ _ _ _ _ (search_by_tags_item_ok)).
Qed.

End BodyLemmas.

(* ===================================================================== *)
(** ** The HTML cleaner *)
(* ===================================================================== *)

Example str_of_int_examples :
  str_of_int 0 = lit "0" /\ str_of_int 42 = lit "42" /\
  str_of_int (-7) = lit "-7".
Proof. repeat split; reflexivity. Qed.

Example replace_examples :
  replace (lit "<p>") [] (lit "<<p>p><p>") = lit "<p>" /\
  replace (lit "aa") (lit "b") (lit "aaa") = lit "ba" /\
  replace [] (lit "-") (lit "ab") = lit "-a-b-".
Proof. repeat split; reflexivity. Qed.

Example strip_examples :
  strip (lit "  a b ") = lit "a b" /\ strip (NL ++ lit "a" ++ NL ++ NL) = lit "a" /\
  strip [160%N; 97%N; 8232%N] = lit "a" /\ strip (lit "   ") = [].
Proof. repeat split; reflexivity. Qed.

(** An opening tag without its closing tag is replaced all the same: it
    does not pass through literally. *)
Lemma unmatched_tag_is_replaced :
  clean_html acme (lit "<strong>x") = lit "**x" /\
  clean_html acme (lit "<strong>x") <> lit "<strong>x".
Proof.
  split; [reflexivity|].
  intros H. vm_compute in H. discriminate H.
Qed.

(** C3, amended.  For every input string [clean_html] decodes the HTML
    entities, then replaces every occurrence of the eight tag strings in
    the order [<p>] (nothing), [</p>] (two newlines), [<code>] and
    [</code>] (a backtick), [<strong>] and [</strong>] (two asterisks),
    [<em>] and [</em>] (one asterisk), and then strips the whitespace at
    both ends.  A string in which, once decoded, none of the eight tag
    strings occurs is only decoded and stripped, so tags with attributes
    and other tags pass through literally; a tag among the eight is
    replaced wherever it occurs, matched or not, nested or not.  In
    particular [clean_html("<p>Hello <strong>world</strong></p>")] is
    ["Hello **world**"] and [clean_html] of the empty string is the empty
    string. *)
Theorem clean_html_steps :
  forall (rt : runtime) (s : pystr),
    clean_html rt s = spec_clean_html rt s /\
    (Forall (fun rule => ~ contains (fst rule) (unescape rt s)) tag_rules ->
     clean_html rt s = strip (unescape rt s)) /\
    clean_html rt (lit "<p>Hello <strong>world</strong></p>") =
      lit "Hello **world**" /\
    clean_html rt [] = [] /\
    clean_html rt (lit "<strong>x") = lit "**x" /\
    clean_html rt (lit "<em><strong>x</strong></em>") = lit "***x***" /\
    clean_html rt (lit "<p class='a'>x</p>") = lit "<p class='a'>x" /\
    clean_html rt (lit "<ul><li>x</li></ul>") = lit "<ul><li>x</li></ul>".
Proof.
  intros rt s. split; [reflexivity|]. split.
  - intros H. unfold tag_rules in H.
    repeat match goal with
           | H : Forall _ (_ :: _) |- _ =>
               let H1 := fresh "Hrule" in
               apply Forall_cons_iff in H as [H1 H]; cbn [fst] in H1
           end.
    unfold clean_html.
    rewrite (@replace_absent (lit "<p>")) by (discriminate || assumption).
    rewrite (@replace_absent (lit "</p>")) by (discriminate || assumption).
    rewrite (@replace_absent (lit "<code>")) by (discriminate || assumption).
    rewrite (@replace_absent (lit "</code>")) by (discriminate || assumption).
    rewrite (@replace_absent (lit "<strong>")) by (discriminate || assumption).
    rewrite (@replace_absent (lit "</strong>")) by (discriminate || assumption).
    rewrite (@replace_absent (lit "<em>")) by (discriminate || assumption).
    rewrite (@replace_absent (lit "</em>")) by (discriminate || assumption).
    reflexivity.
  - repeat split; reflexivity.
Qed.

Lemma clean_html_steps_witness :
  clean_html acme (lit "<a href='#'>x</a> ") =
    strip (unescape acme (lit "<a href='#'>x</a> ")).
Proof.
  apply (proj1 (proj2 (clean_html_steps acme (lit "<a href='#'>x</a> ")))).
  repeat constructor; apply not_contains_spec; reflexivity.
Defined.

(* ===================================================================== *)
(** ** Failures of the API client *)
(* ===================================================================== *)

Lemma caught_raise_prefix (rt : runtime) (e : exn) :
  startswith (lit "HTTP Error: ") (caught rt (Raise e)) = true.
Proof.
  apply startswith_app.
Qed.

Lemma singleton_split (A : Type) (x y : A) (before after : list A) :
  [x] = before ++ y :: after -> before = [] /\ y = x /\ after = [].
Proof.
  destruct before as [|b before]; simpl; intros H.
  - injection H as -> <-. auto.
  - injection H as _ H. now destruct before.
Qed.

Lemma pair_split (A : Type) (x1 x2 y : A) (before after : list A) :
  [x1; x2] = before ++ y :: after ->
  (before = [] /\ y = x1) \/ (before = [x1] /\ y = x2).
Proof.
  destruct before as [|b before]; simpl; intros H.
  - injection H as -> _. auto.
  - injection H as <- H. apply singleton_split in H as (-> & -> & _). auto.
Qed.

(** A handler with one request, when the request fails. *)
Lemma one_request_failure (rt : runtime) (net : network) (url : pystr)
      (params : list (pystr * value)) (body : value -> outcome pystr)
      (tr : trace) (before after : list request) (req : request) :
  [api_request rt url params] = before ++ req :: after ->
  api_fails (net (tr ++ before) req) ->
  startswith (lit "HTTP Error: ")
    (caught rt (obind (reply_outcome (net tr (api_request rt url params))) body))
  = true.
Proof.
  intros Hsplit Hfail.
  apply singleton_split in Hsplit as (-> & -> & _).
  rewrite app_nil_r in Hfail.
  apply reply_outcome_fails in Hfail as [e ->].
  apply caught_raise_prefix.
Qed.

(** C1.  Every call of each of the five tools returns a string: no
    exception escapes a handler.  When the API client fails on one of the
    requests of the call (a transport error, a status that is not 2xx, or
    a body that is not JSON) the string starts with ["HTTP Error: "]. *)
Theorem handlers_catch_api_failures :
  forall (rt : runtime) (net : network) (t : tool) (arg : pystr) (tr : trace),
  exists (s : pystr) (issued : list request),
    call_tool rt net t arg tr = (Return s, tr ++ issued) /\
    (forall (before after : list request) (req : request),
        issued = before ++ req :: after ->
        api_fails (net (tr ++ before) req) ->
        startswith (lit "HTTP Error: ") s = true).
Proof.
  intros rt net t arg tr.
  destruct t; cbn [call_tool];
    try (unfold stackoverflow_search_questions, stackoverflow_search_answers,
           stackoverflow_search_excerpts, stackoverflow_search_by_tags;
         rewrite one_request_run;
         eexists; eexists; split; [reflexivity|];
         intros before after req; apply one_request_failure).
  rewrite fetch_run. cbv zeta.
  destruct (reply_outcome (net tr _)) as [q_data|e] eqn:Eq.
  - eexists; exists [question_request rt arg; answers_request rt arg].
    split; [now rewrite <- app_assoc|].
    intros before after req Hsplit Hfail.
    apply pair_split in Hsplit as [[-> ->]|[-> ->]].
    + rewrite app_nil_r in Hfail.
      apply reply_outcome_fails in Hfail as [e He].
      unfold question_request in He. congruence.
    + apply reply_outcome_fails in Hfail as [e He].
      unfold question_request, answers_request in He.
      rewrite He. cbn [obind]. apply caught_raise_prefix.
  - eexists; exists [question_request rt arg].
    split; [reflexivity|].
    intros before after req _ _. apply caught_raise_prefix.
Qed.

Lemma handlers_catch_api_failures_witness :
  exists s : pystr,
    fst (call_tool acme (scripted [ok (with_items []); status 503])
                   FetchQuestionById (lit "42") []) = Return s /\
    startswith (lit "HTTP Error: ") s = true.
Proof.
  destruct (handlers_catch_api_failures acme
              (scripted [ok (with_items []); status 503])
              FetchQuestionById (lit "42") [])
    as (s & issued & Hrun & Hfail).
  exists s. split.
  - rewrite Hrun. reflexivity.
  - assert (Hissued : issued = [question_request acme (lit "42");
                                answers_request acme (lit "42")]).
    { pose proof (f_equal snd Hrun) as Htr. simpl in Htr.
      rewrite <- Htr. reflexivity. }
    apply (Hfail [question_request acme (lit "42")] []
                 (answers_request acme (lit "42")) Hissued).
    simpl. left. unfold is_2xx. lia.
Defined.

(** C6.  A call of [http_get] issues one request, to the given URL with
    the given query parameters, with the header [X-API-Access-Token] set to
    the configured token and a timeout of 10 seconds.  On a 2xx status it
    returns the parsed JSON body, on any other status it raises the
    HTTP-status error and returns nothing, and it raises when the
    transport fails.  Every request a tool issues has this header and this
    timeout. *)
Theorem http_get_contract :
  forall (rt : runtime) (net : network),
    (forall (url : pystr) (params : list (pystr * value)) (tr : trace),
      exists req : request,
        snd (http_get rt net url params tr) = tr ++ [req] /\
        req_url req = url /\
        req_params req = params /\
        req_headers req = [(lit "X-API-Access-Token", PAT rt)] /\
        req_timeout req = 10%Z /\
        match net tr req with
        | Failed msg =>
            fst (http_get rt net url params tr) = Raise (TransportError msg)
        | Responded resp =>
            (is_2xx (status_code resp) ->
             forall data : value,
               json_body resp = Some data ->
               fst (http_get rt net url params tr) = Return data) /\
            (~ is_2xx (status_code resp) ->
             fst (http_get rt net url params tr) =
               Raise (HTTPStatusError (status_code resp)))
        end) /\
    (forall (t : tool) (arg : pystr) (tr : trace),
      exists issued : list request,
        snd (call_tool rt net t arg tr) = tr ++ issued /\
        Forall (fun req =>
                  req_headers req = [(lit "X-API-Access-Token", PAT rt)] /\
                  req_timeout req = 10%Z) issued).
Proof.
  intros rt net. split.
  - intros url params tr. exists (api_request rt url params).
    rewrite http_get_run. cbn [fst snd].
    repeat (split; [reflexivity|]).
    destruct (net tr (api_request rt url params)) as [msg|resp]; [reflexivity|].
    unfold reply_outcome, raise_for_status, resp_json. split.
    + intros H2 data Hbody. apply is_2xx_test in H2.
      now rewrite H2, Hbody.
    + intros H2.
      destruct ((200 <=? status_code resp)%Z && (status_code resp <=? 299)%Z)
        eqn:E; [|reflexivity].
      apply is_2xx_test in E. contradiction.
  - intros t arg tr.
    destruct t; cbn [call_tool];
      try (unfold stackoverflow_search_questions, stackoverflow_search_answers,
             stackoverflow_search_excerpts, stackoverflow_search_by_tags;
           rewrite one_request_run; cbn [snd];
           eexists; split; [reflexivity|];
           repeat constructor).
    rewrite fetch_run. cbv zeta.
    destruct (reply_outcome (net tr _)); cbn [snd].
    + exists [question_request rt arg; answers_request rt arg].
      split; [now rewrite <- app_assoc|repeat constructor].
    + exists [question_request rt arg].
      split; [reflexivity|repeat constructor].
Qed.

Lemma http_get_contract_witness :
  fst (http_get acme (scripted [status 404]) (lit "https://api.example.test/2.3/questions")
                [] []) = Raise (HTTPStatusError 404) /\
  fst (http_get acme (scripted [ok (with_items [])]) (lit "https://api.example.test/2.3/questions")
                [] []) = Return (with_items []).
Proof.
  split.
  - destruct (proj1 (http_get_contract acme (scripted [status 404]))
                (lit "https://api.example.test/2.3/questions") [] [])
      as (req & _ & _ & _ & _ & _ & Hreply).
    apply (proj2 Hreply). unfold is_2xx. simpl. lia.
  - destruct (proj1 (http_get_contract acme (scripted [ok (with_items [])]))
                (lit "https://api.example.test/2.3/questions") [] [])
      as (req & _ & _ & _ & _ & _ & Hreply).
    apply (proj1 Hreply); [unfold is_2xx; simpl; lia|reflexivity].
Defined.

(** C9.  [fetch_question_by_id] issues the answers request as soon as the
    question request has succeeded, before it looks at the question's
    items.  So when the question request succeeds, with an empty item list
    or any other body, and the answers request fails, the result is an
    ["HTTP Error: "] string and not ["Question not found."]; and
    ["Question not found."] is returned only when both requests
    succeeded. *)
Theorem fetch_awaits_answers_first :
  forall (rt : runtime) (net : network) (question_id : pystr) (tr : trace),
    (forall q_data : value,
        succeeds (net tr (question_request rt question_id)) q_data ->
        snd (stackoverflow_fetch_question_by_id rt net question_id tr) =
          tr ++ [question_request rt question_id;
                 answers_request rt question_id]) /\
    (forall q_data : value,
        succeeds (net tr (question_request rt question_id)) q_data ->
        api_fails (net (tr ++ [question_request rt question_id])
                       (answers_request rt question_id)) ->
        exists s : pystr,
          fst (stackoverflow_fetch_question_by_id rt net question_id tr) =
            Return s /\
          startswith (lit "HTTP Error: ") s = true /\
          s <> lit "Question not found.") /\
    (fst (stackoverflow_fetch_question_by_id rt net question_id tr) =
       Return (lit "Question not found.") ->
     exists q_data a_data : value,
       succeeds (net tr (question_request rt question_id)) q_data /\
       succeeds (net (tr ++ [question_request rt question_id])
                     (answers_request rt question_id)) a_data).
Proof.
  intros rt net question_id tr.
  rewrite fetch_run. cbv zeta.
  fold (question_request rt question_id) (answers_request rt question_id).
  split; [|split].
  - intros q_data Hq. apply reply_outcome_succeeds in Hq. rewrite Hq.
    cbn [snd]. now rewrite <- app_assoc.
  - intros q_data Hq Ha.
    apply reply_outcome_succeeds in Hq. rewrite Hq.
    apply reply_outcome_fails in Ha as [e He]. rewrite He.
    cbn [fst obind]. eexists. split; [reflexivity|]. split.
    + apply caught_raise_prefix.
    + intros H. unfold caught in H. discriminate H.
  - destruct (reply_outcome (net tr _)) as [q_data|e] eqn:Eq; cbn [fst].
    + destruct (reply_outcome (net (tr ++ _) _)) as [a_data|e] eqn:Ea;
        cbn [obind].
      * intros _. exists q_data, a_data.
        split; now apply reply_outcome_succeeds.
      * intros H. unfold caught in H. discriminate H.
    + intros H. unfold caught in H. discriminate H.
Qed.

Lemma fetch_awaits_answers_first_witness :
  exists s : pystr,
    fst (stackoverflow_fetch_question_by_id acme
           (scripted [ok (with_items []); Failed (lit "timed out")])
           (lit "42") []) = Return s /\
    startswith (lit "HTTP Error: ") s = true /\
    s <> lit "Question not found.".
Proof.
  apply (proj1 (proj2 (fetch_awaits_answers_first acme
           (scripted [ok (with_items []); Failed (lit "timed out")])
           (lit "42") [])) (with_items [])).
  - exists 200%Z. split; [unfold is_2xx; lia|reflexivity].
  - exact I.
Defined.

(* ===================================================================== *)
(** ** Empty results *)
(* ===================================================================== *)

Lemma has_no_items_inv (data : value) :
  has_no_items data = true ->
  exists d, data = VDict d /\ lookup d (lit "items") = Some (VList []).
Proof.
  destruct data as [| | | | | |d]; try discriminate.
  unfold has_no_items.
  destruct (lookup d (lit "items")) as [[| | | | |[|x l]|]|] eqn:E;
    try discriminate.
  intros _. exists d. split; [reflexivity|exact E].
Qed.

(** The body of each tool on a first response whose [items] is the empty
    list. *)
Lemma tool_body_no_items (rt : runtime) (t : tool) (data : value)
      (rest : list value) :
  List.length (data :: rest) = List.length (tool_requests rt t []) ->
  has_no_items data = true ->
  tool_body rt t (data :: rest) = Return (sentinel t).
Proof.
  intros Hlen Hdata.
  apply has_no_items_inv in Hdata as (d & -> & Hitems).
  destruct t; cbn [tool_requests List.length] in Hlen;
    destruct rest as [|a_data [|? ?]]; try discriminate Hlen;
    cbn [tool_body sentinel];
    unfold search_questions_body, search_answers_body, search_excerpts_body,
      fetch_question_body, search_by_tags_body;
    rewrite py_get_dict; unfold field; rewrite Hitems; reflexivity.
Qed.

Lemma answered_length (net : network) (reqs : list request) :
  forall (tr : trace) (datas : list value),
    answered net tr reqs datas -> List.length datas = List.length reqs.
Proof.
  induction reqs as [|r reqs IH]; intros tr [|d datas] H; simpl in H;
    try tauto.
  simpl. f_equal. now apply (IH (tr ++ [r])).
Qed.

(** C4.  When the requests of a tool succeed and the [items] of the
    response is the empty list, the tool returns its empty-result message
    and nothing else: ["No relevant questions found."],
    ["No relevant answers found."], ["No relevant excerpts found."],
    ["Question not found."] (the response is that of the question request
    and the answers request may hold anything) and
    ["No questions found for the given tags."]. *)
Theorem empty_items_give_sentinel :
  forall (rt : runtime) (net : network) (t : tool) (arg : pystr) (tr : trace)
         (data : value) (rest : list value),
    answered net tr (tool_requests rt t arg) (data :: rest) ->
    has_no_items data = true ->
    fst (call_tool rt net t arg tr) = Return (sentinel t) /\
    sentinel t =
      match t with
      | SearchQuestions => lit "No relevant questions found."
      | SearchAnswers => lit "No relevant answers found."
      | SearchExcerpts => lit "No relevant excerpts found."
      | FetchQuestionById => lit "Question not found."
      | SearchByTags => lit "No questions found for the given tags."
      end.
Proof.
  intros rt net t arg tr data rest Hnet Hdata.
  split; [|destruct t; reflexivity].
  rewrite (call_tool_answered _ _ _ _ _ _ Hnet). cbn [fst].
  rewrite tool_body_no_items; [reflexivity| |assumption].
  rewrite (answered_length _ _ _ _ Hnet). now destruct t.
Qed.

Lemma empty_items_give_sentinel_witness :
  fst (call_tool acme (scripted [ok (with_items []); ok (VList [VInt 1])])
                 FetchQuestionById (lit "42") []) =
    Return (lit "Question not found.") /\
  fst (call_tool acme (scripted [ok (with_items [])])
                 SearchAnswers (lit "rocq") []) =
    Return (lit "No relevant answers found.").
Proof.
  split.
  - apply (empty_items_give_sentinel acme
             (scripted [ok (with_items []); ok (VList [VInt 1])])
             FetchQuestionById (lit "42") [] (with_items []) [VList [VInt 1]]).
    + repeat split; exists 200%Z; (split; [unfold is_2xx; lia|reflexivity]).
    + reflexivity.
  - apply (empty_items_give_sentinel acme (scripted [ok (with_items [])])
             SearchAnswers (lit "rocq") [] (with_items []) []).
    + repeat split; exists 200%Z; (split; [unfold is_2xx; lia|reflexivity]).
    + reflexivity.
Defined.

(* ===================================================================== *)
(** ** What the handlers render *)
(* ===================================================================== *)

(** The requests of a scenario are answered by its script. *)
Ltac by_script :=
  repeat split; exists 200%Z; (split; [unfold is_2xx; lia|reflexivity]).

(** The link of a question goes into the result as the response has it:
    its markup is not cleaned. *)
Lemma link_is_not_cleaned :
  fst (call_tool acme (scripted [ok (with_items [marked_up_link_item])])
                 SearchQuestions (lit "q") []) =
    Return (lit "### T" ++ NL ++ NL ++ LINK_SYMBOL ++
            lit " [View Question](<strong>l</strong>)") /\
  listing (sentinel SearchQuestions) (claimed_question_entry acme)
          [marked_up_link_item] =
    lit "### T" ++ NL ++ NL ++ LINK_SYMBOL ++ lit " [View Question](**l**)" /\
  fst (call_tool acme (scripted [ok (with_items [marked_up_link_item])])
                 SearchQuestions (lit "q") []) <>
    Return (listing (sentinel SearchQuestions) (claimed_question_entry acme)
                    [marked_up_link_item]).
Proof.
  split; [reflexivity|]. split; [reflexivity|].
  intros H. vm_compute in H. discriminate H.
Qed.

(** The result of a tool on well-formed responses. *)
Lemma text_fields_output (rt : runtime) (net : network) (t : tool)
      (arg : pystr) (tr : trace) (datas : list value) :
  answered net tr (tool_requests rt t arg) datas ->
  well_formed t datas = true ->
  fst (call_tool rt net t arg tr) = Return (expected_output rt t datas).
Proof.
  intros Hnet Hwf.
  rewrite (call_tool_answered _ _ _ _ _ _ Hnet). cbn [fst].
  now rewrite (tool_body_well_formed rt _ _ Hwf).
Qed.

(** C2, amended.  For every tool and every response whose items are
    objects and whose [title], [body] and [excerpt] fields are absent or
    strings, the result is the rendering of section 4.3 in which every
    [title], [body] and [excerpt] has been passed through [clean_html];
    the [link], [item_type], [question_id] and [score] fields are put into
    the result as [str] gives them, without cleaning. *)
Theorem text_fields_are_cleaned :
  forall (rt : runtime) (net : network) (t : tool) (arg : pystr) (tr : trace)
         (datas : list value),
    answered net tr (tool_requests rt t arg) datas ->
    well_formed t datas = true ->
    fst (call_tool rt net t arg tr) = Return (expected_output rt t datas).
Proof.
  intros rt net t arg tr datas. apply text_fields_output.
Qed.

Lemma text_fields_are_cleaned_witness :
  fst (call_tool acme (scripted [ok (with_items [full_question; marked_up_link_item])])
                 SearchQuestions (lit "induction") []) =
    Return (lit "### How to *prove* it?" ++ NL ++ lit "By induction." ++ NL ++
            LINK_SYMBOL ++ lit " [View Question](#)" ++ NL ++ NL ++
            lit "### T" ++ NL ++ NL ++
            LINK_SYMBOL ++ lit " [View Question](<strong>l</strong>)").
Proof.
  apply (text_fields_are_cleaned acme
           (scripted [ok (with_items [full_question; marked_up_link_item])])
           SearchQuestions (lit "induction") []
           [with_items [full_question; marked_up_link_item]]).
  - by_script.
  - reflexivity.
Defined.

Lemma filter_filter (A : Type) (keep : A -> bool) (xs : list A) :
  filter keep (filter keep xs) = filter keep xs.
Proof.
  induction xs as [|x xs IH]; simpl; [reflexivity|].
  destruct (keep x) eqn:E; simpl; [rewrite E; f_equal|]; exact IH.
Qed.

Lemma forallb_filter (A : Type) (good keep : A -> bool) (xs : list A) :
  forallb good xs = true -> forallb good (filter keep xs) = true.
Proof.
  induction xs as [|x xs IH]; simpl; [trivial|].
  rewrite andb_true_iff. intros [Hx Hxs].
  destruct (keep x); simpl; [rewrite Hx|]; now apply IH.
Qed.

(** What [search_answers] does after the list comprehension depends on
    the answers alone. *)
Lemma search_answers_body_filter (rt : runtime) (data : value) :
  has_item_list data = true ->
  forallb is_dict (items_of data) = true ->
  search_answers_body rt data =
    match filter is_answer (items_of data) with
    | [] => Return (lit "No relevant answers found.")
    | items =>
        results <~ for_each items (search_answers_item rt) [] ;;
        Return (join (NL ++ NL) results)
    end.
Proof.
  intros Hdata Hitems.
  destruct data as [| | | | | |d]; try discriminate Hdata.
  unfold has_item_list in Hdata. unfold items_of in *.
  unfold search_answers_body. rewrite py_get_dict. unfold field.
  destruct (lookup d (lit "items")) as [[| | | | |l|]|]; try discriminate Hdata;
    [|reflexivity].
  cbn [obind py_iter]. rewrite (keep_answers _ Hitems). cbn [obind].
  now destruct (filter is_answer l).
Qed.

Lemma items_of_with_items (items : list value) :
  items_of (with_items items) = items.
Proof.
  reflexivity.
Qed.

(** C5.  Of the items of a response [search_answers] counts and renders
    those whose [item_type] is ["answer"] and no other: the result is the
    one for the response stripped of the items of another type or of no
    type, whatever these hold; and when the excerpts of the answers are
    strings it is the list of the entries of the answers, or
    ["No relevant answers found."] when there is none. *)
Theorem search_answers_keeps_only_answers :
  forall (rt : runtime) (net : network) (query : pystr) (tr : trace)
         (data : value),
    answered net tr (tool_requests rt SearchAnswers query) [data] ->
    has_item_list data = true ->
    forallb is_dict (items_of data) = true ->
    fst (stackoverflow_search_answers rt net query tr) =
      Return (caught rt (search_answers_body rt
                (with_items (filter is_answer (items_of data))))) /\
    (forallb (item_ok [lit "excerpt"]) (filter is_answer (items_of data)) = true ->
     fst (stackoverflow_search_answers rt net query tr) =
       Return (listing (lit "No relevant answers found.") (answer_entry rt)
                       (filter is_answer (items_of data)))).
Proof.
  intros rt net query tr data Hnet Hdata Hitems.
  change (stackoverflow_search_answers rt net query tr)
    with (call_tool rt net SearchAnswers query tr).
  rewrite (call_tool_answered _ _ _ _ _ _ Hnet). cbn [fst tool_body].
  split.
  - rewrite (search_answers_body_filter rt _ Hdata Hitems).
    rewrite (search_answers_body_filter rt (with_items _));
      [|reflexivity|rewrite items_of_with_items; now apply forallb_filter].
    now rewrite items_of_with_items, filter_filter.
  - intros Hexcerpts.
    assert (Hwf : well_formed SearchAnswers [data] = true).
    { cbn [well_formed]. now rewrite Hdata, Hitems, Hexcerpts. }
    apply (tool_body_well_formed rt) in Hwf. cbn [tool_body] in Hwf.
    now rewrite Hwf.
Qed.

Lemma search_answers_keeps_only_answers_witness :
  fst (stackoverflow_search_answers acme
         (scripted [ok (with_items [question_item; answer_item;
                                    VDict [(lit "excerpt", VStr (lit "x"))]])])
         (lit "lia") []) =
    Return (lit "**Answer Excerpt:**" ++ NL ++ lit "Use `lia`" ++ NL ++
            LINK_SYMBOL ++
            lit " [View Answer](https://acme.stackoverflowteams.com/c/acme/questions/7)").
Proof.
  apply (proj2 (@search_answers_keeps_only_answers acme
           (scripted [ok (with_items [question_item; answer_item;
                                      VDict [(lit "excerpt", VStr (lit "x"))]])])
           (lit "lia") []
           (with_items [question_item; answer_item;
                        VDict [(lit "excerpt", VStr (lit "x"))]])
           ltac:(by_script) eq_refl eq_refl)).
  reflexivity.
Defined.

(* ===================================================================== *)
(** ** Constructed links *)
(* ===================================================================== *)

(** The two tools that construct the link render each item they keep with
    [item_link]. *)
Lemma constructed_link_output (rt : runtime) (net : network) (t : tool)
      (query : pystr) (tr : trace) (data : value) :
  constructs_link t = true ->
  answered net tr (tool_requests rt t query) [data] ->
  well_formed t [data] = true ->
  fst (call_tool rt net t query tr) =
    Return (listing (sentinel t)
                    (fun i => entry_with_link rt t i (item_link rt i))
                    (rendered_items t data)).
Proof.
  intros Ht Hnet Hwf.
  rewrite (call_tool_answered _ _ _ _ _ _ Hnet). cbn [fst].
  rewrite (tool_body_well_formed rt _ _ Hwf).
  destruct t; try discriminate Ht; reflexivity.
Qed.

(** A [question_id] that is present and 0 gives the link ["#"], not the
    constructed URL. *)
Lemma present_zero_id_gives_hash :
  lookup (as_dict zero_id_item) (lit "question_id") = Some (VInt 0) /\
  fst (call_tool acme (scripted [ok (with_items [zero_id_item])])
                 SearchAnswers (lit "q") []) =
    Return (lit "**Answer Excerpt:**" ++ NL ++ lit "E" ++ NL ++ LINK_SYMBOL ++
            lit " [View Answer](#)") /\
  claimed_item_link acme zero_id_item =
    lit "https://acme.stackoverflowteams.com/c/acme/questions/0".
Proof.
  repeat split; reflexivity.
Qed.

(** C7, amended.  In [search_answers] and [search_excerpts] every item
    that is rendered is rendered with a link that is
    [https://{TEAM}.stackoverflowteams.com/c/{TEAM}/questions/{question_id}]
    when its [question_id] is present and true in the sense of Python
    (not 0, not empty, not [null]), and ["#"] when its [question_id] is
    absent. *)
Theorem constructed_link_pattern :
  forall (rt : runtime) (net : network) (t : tool) (query : pystr)
         (tr : trace) (data : value),
    constructs_link t = true ->
    answered net tr (tool_requests rt t query) [data] ->
    well_formed t [data] = true ->
    fst (call_tool rt net t query tr) =
      Return (listing (sentinel t)
                      (fun i => entry_with_link rt t i (item_link rt i))
                      (rendered_items t data)) /\
    (forall i : value,
        In i (rendered_items t data) ->
        (forall qid : value,
            lookup (as_dict i) (lit "question_id") = Some qid ->
            truthy qid = true ->
            item_link rt i =
              lit "https://" ++ fmt_env (TEAM rt) ++
              lit ".stackoverflowteams.com/c/" ++ fmt_env (TEAM rt) ++
              lit "/questions/" ++ py_str rt qid) /\
        (lookup (as_dict i) (lit "question_id") = None ->
         item_link rt i = lit "#")).
Proof.
  intros rt net t query tr data Ht Hnet Hwf.
  split; [now apply constructed_link_output|].
  intros i _. unfold item_link. split.
  - intros qid -> ->. reflexivity.
  - now intros ->.
Qed.

Lemma constructed_link_pattern_witness :
  fst (call_tool acme (scripted [ok (with_items [answer_item; anonymous_item])])
                 SearchExcerpts (lit "lia") []) =
    Return (lit "**Type:** answer" ++ NL ++ lit "**Title:** " ++ NL ++
            lit "Use `lia`" ++ NL ++ LINK_SYMBOL ++
            lit " [View Full Post](https://acme.stackoverflowteams.com/c/acme/questions/7)" ++
            NL ++ NL ++
            lit "**Type:** answer" ++ NL ++ lit "**Title:** A" ++ NL ++
            lit "E" ++ NL ++ LINK_SYMBOL ++ lit " [View Full Post](#)") /\
  item_link acme answer_item =
    lit "https://acme.stackoverflowteams.com/c/acme/questions/7" /\
  item_link acme anonymous_item = lit "#".
Proof.
  destruct (@constructed_link_pattern acme
              (scripted [ok (with_items [answer_item; anonymous_item])])
              SearchExcerpts (lit "lia") []
              (with_items [answer_item; anonymous_item])
              eq_refl ltac:(by_script) eq_refl) as [Hout Hlinks].
  split; [exact Hout|]. split.
  - apply (proj1 (Hlinks answer_item (or_introl eq_refl)) (VInt 7));
      reflexivity.
  - apply (proj2 (Hlinks anonymous_item (or_intror (or_introl eq_refl)))).
    reflexivity.
Defined.

(** C10.  In [search_answers] and [search_excerpts] every item that is
    rendered is rendered with the link ["#"] when its [question_id] is
    present and false in the sense of Python: 0, the empty string,
    [null], and every other value Python takes for false. *)
Theorem falsy_question_id_gives_hash :
  forall (rt : runtime) (net : network) (t : tool) (query : pystr)
         (tr : trace) (data : value),
    constructs_link t = true ->
    answered net tr (tool_requests rt t query) [data] ->
    well_formed t [data] = true ->
    fst (call_tool rt net t query tr) =
      Return (listing (sentinel t)
                      (fun i => entry_with_link rt t i (item_link rt i))
                      (rendered_items t data)) /\
    (forall (i qid : value),
        In i (rendered_items t data) ->
        lookup (as_dict i) (lit "question_id") = Some qid ->
        qid = VInt 0 \/ qid = VStr [] \/ qid = VNone \/ truthy qid = false ->
        item_link rt i = lit "#").
Proof.
  intros rt net t query tr data Ht Hnet Hwf.
  split; [now apply constructed_link_output|].
  intros i qid _ Hqid Hfalse. unfold item_link. rewrite Hqid.
  assert (H : truthy qid = false)
    by (destruct Hfalse as [->|[->|[->|H]]]; [reflexivity ..|exact H]).
  now rewrite H.
Qed.

Lemma falsy_question_id_gives_hash_witness :
  fst (call_tool acme (scripted [ok (with_items [zero_id_item; null_id_item])])
                 SearchAnswers (lit "lia") []) =
    Return (lit "**Answer Excerpt:**" ++ NL ++ lit "E" ++ NL ++ LINK_SYMBOL ++
            lit " [View Answer](#)" ++ NL ++ NL ++
            lit "**Answer Excerpt:**" ++ NL ++ lit "E" ++ NL ++ LINK_SYMBOL ++
            lit " [View Answer](#)") /\
  item_link acme zero_id_item = lit "#" /\
  item_link acme null_id_item = lit "#".
Proof.
  destruct (@falsy_question_id_gives_hash acme
              (scripted [ok (with_items [zero_id_item; null_id_item])])
              SearchAnswers (lit "lia") []
              (with_items [zero_id_item; null_id_item])
              eq_refl ltac:(by_script) eq_refl) as [Hout Hlinks].
  split; [exact Hout|]. split.
  - apply (Hlinks zero_id_item (VInt 0) (or_introl eq_refl) eq_refl).
    now left.
  - apply (Hlinks null_id_item VNone (or_intror (or_introl eq_refl)) eq_refl).
    now right; right; left.
Defined.

(* ===================================================================== *)
(** ** A question without answers *)
(* ===================================================================== *)

(** A character that is not in [needle] cannot begin an occurrence. *)
Lemma contains_skip (needle s : pystr) (c : N) :
  needle <> [] -> ~ In c needle ->
  contains needle (c :: s) -> contains needle s.
Proof.
  intros Hne Hc H.
  apply (@contains_across needle [] s c Hc) in H as [H|H]; [|exact H].
  apply contains_nil_inv in H. contradiction.
Qed.

(** The response for a question without answers holds [**Score:**] only
    if the cleaned title or the cleaned body does. *)
Lemma no_score_without_answers (title body : pystr) :
  ~ contains SCORE title -> ~ contains SCORE body ->
  ~ contains SCORE
      (lit "## " ++ title ++ NL ++ NL ++ body ++ NL ++ NL ++ NL ++ NL ++
       lit "_No answers found._").
Proof.
  intros Ht Hb H.
  assert (Hne : SCORE <> []) by discriminate.
  assert (Hchar : forall c, existsb (N.eqb c) SCORE = false -> ~ In c SCORE).
  { intros c E Hin.
    assert (existsb (N.eqb c) SCORE = true)
      by (apply existsb_exists; exists c; split;
          [exact Hin|apply N.eqb_refl]).
    congruence. }
  change (contains SCORE
            (35%N :: 35%N :: 32%N ::
               title ++ 10%N :: 10%N ::
               body ++ 10%N :: 10%N :: 10%N :: 10%N ::
               lit "_No answers found._")) in H.
  do 3 (apply contains_skip in H; [|exact Hne|now apply Hchar]).
  apply contains_across in H as [H|H]; [contradiction| |now apply Hchar].
  apply contains_skip in H; [|exact Hne|now apply Hchar].
  apply contains_across in H as [H|H]; [contradiction| |now apply Hchar].
  apply containsb_spec in H. vm_compute in H. discriminate H.
Qed.

(** C8.  When both requests of [fetch_question_by_id] succeed, the
    question list is not empty, its first item has a title and a body that
    are strings or absent, and the answers list is empty or absent, the
    result contains ["_No answers found._"]; and it contains no
    ["**Score:**"], given that neither the cleaned title nor the cleaned
    body of the question does. *)
Theorem no_answers_no_score :
  forall (rt : runtime) (net : network) (question_id : pystr) (tr : trace)
         (q_data a_data question : value) (others : list value),
    answered net tr (tool_requests rt FetchQuestionById question_id)
             [q_data; a_data] ->
    has_item_list q_data = true ->
    items_of q_data = question :: others ->
    item_ok [lit "title"; lit "body"] question = true ->
    has_item_list a_data = true ->
    items_of a_data = [] ->
    ~ contains (lit "**Score:**")
        (clean_html rt (text (as_dict question) (lit "title"))) ->
    ~ contains (lit "**Score:**")
        (clean_html rt (text (as_dict question) (lit "body"))) ->
    exists s : pystr,
      fst (stackoverflow_fetch_question_by_id rt net question_id tr) =
        Return s /\
      contains (lit "_No answers found._") s /\
      ~ contains (lit "**Score:**") s.
Proof.
  intros rt net question_id tr q_data a_data question others
         Hnet Hq Hqitems Hquestion Ha Haitems Htitle Hbody.
  change (stackoverflow_fetch_question_by_id rt net question_id tr)
    with (call_tool rt net FetchQuestionById question_id tr).
  assert (Hwf : well_formed FetchQuestionById [q_data; a_data] = true).
  { cbn [well_formed]. rewrite Hq, Hqitems, Hquestion, Ha, Haitems.
    reflexivity. }
  rewrite (text_fields_output rt net _ _ _ _ Hnet Hwf).
  cbn [expected_output]. rewrite Hqitems, Haitems.
  eexists. split; [reflexivity|]. split.
  - exists (question_header rt question ++ NL ++ NL), [].
    now rewrite app_nil_r, <- app_assoc.
  - unfold question_header. rewrite <- !app_assoc.
    now apply no_score_without_answers.
Qed.

Lemma no_answers_no_score_witness :
  exists s : pystr,
    fst (stackoverflow_fetch_question_by_id acme
           (scripted [ok (with_items [full_question]); ok (with_items [])])
           (lit "42") []) = Return s /\
    contains (lit "_No answers found._") s /\
    ~ contains (lit "**Score:**") s.
Proof.
  apply (@no_answers_no_score acme
           (scripted [ok (with_items [full_question]); ok (with_items [])])
           (lit "42") [] (with_items [full_question]) (with_items [])
           full_question []).
  - by_script.
  - reflexivity.
  - reflexivity.
  - reflexivity.
  - reflexivity.
  - reflexivity.
  - apply not_contains_spec. reflexivity.
  - apply not_contains_spec. reflexivity.
Defined.

(* ===================================================================== *)
(** ** More on [str.replace], [str.strip] and the HTML cleaner *)
(* ===================================================================== *)

Section ReplaceLemmas.
Variables old new : pystr.
Hypothesis old_not_empty : old <> [].

Lemma replace_from_skipn (k : nat) (s : pystr) :
  replace_from old new k s = replace_from old new 0 (skipn k s).
Proof.
  revert k. induction s as [|c s IH]; intros [|k]; try reflexivity.
  cbn [replace_from skipn]. apply IH.
Qed.

Lemma replace_nonempty (s : pystr) :
  replace old new s = replace_from old new 0 s.
Proof.
  unfold replace. destruct old; [contradiction|reflexivity].
Qed.

Lemma replace_nil : replace old new [] = [].
Proof.
  now rewrite replace_nonempty.
Qed.

(** At an occurrence of [old]. *)
Lemma replace_match (rest : pystr) :
  replace old new (old ++ rest) = new ++ replace old new rest.
Proof.
  rewrite !replace_nonempty.
  destruct old as [|o old'] eqn:E; [contradiction|].
  rewrite <- E. assert (Hs : old ++ rest = o :: (old' ++ rest)) by now rewrite E.
  rewrite Hs. cbn [replace_from]. rewrite <- Hs, startswith_app.
  rewrite replace_from_skipn.
  replace (List.length old - 1) with (List.length old')
    by (rewrite E; simpl; lia).
  now rewrite skipn_app, skipn_all, Nat.sub_diag.
Qed.

(** Where no occurrence of [old] begins. *)
Lemma replace_step (c : N) (s : pystr) :
  startswith old (c :: s) = false ->
  replace old new (c :: s) = c :: replace old new s.
Proof.
  intros H. rewrite !replace_nonempty. cbn [replace_from]. now rewrite H.
Qed.

(** Induction along the scan of [replace]. *)
Lemma replace_ind (P : pystr -> pystr -> Prop) :
  P [] [] ->
  (forall rest, P rest (replace old new rest) ->
                P (old ++ rest) (new ++ replace old new rest)) ->
  (forall c s, startswith old (c :: s) = false ->
               P s (replace old new s) ->
               P (c :: s) (c :: replace old new s)) ->
  forall s, P s (replace old new s).
Proof.
  intros Hnil Hmatch Hstep s.
  remember (List.length s) as n eqn:Hn.
  revert s Hn. induction n as [n IH] using lt_wf_ind. intros s Hn.
  destruct s as [|c s]; [now rewrite replace_nil|].
  destruct (startswith old (c :: s)) eqn:E.
  - destruct (startswith_split _ _ E) as [rest Hrest].
    rewrite Hrest, replace_match. apply Hmatch.
    apply (IH (List.length rest)); [|reflexivity].
    subst n. rewrite Hrest, length_app.
    destruct old; [contradiction|simpl; lia].
  - rewrite (replace_step _ _ E). apply Hstep; [exact E|].
    apply (IH (List.length s)); [subst n; simpl; lia|reflexivity].
Qed.

(** A replacement that is no longer than what it replaces does not
    lengthen the string. *)
Lemma replace_length (s : pystr) :
  List.length new <= List.length old ->
  List.length (replace old new s) <= List.length s.
Proof.
  intros Hlen. apply (replace_ind (fun s r => List.length r <= List.length s)).
  - reflexivity.
  - intros rest IH. rewrite !length_app. lia.
  - intros c s' _ IH. simpl. lia.
Qed.

Hypothesis new_not_empty : new <> [].

(** What the result begins with, the string began with, as far as the
    characters of [new] are not involved. *)
Lemma replace_prefix (s u : pystr) :
  (forall x, In x u -> ~ In x new) ->
  startswith u (replace old new s) = true -> startswith u s = true.
Proof.
  revert u.
  apply (replace_ind (fun s r => forall u,
           (forall x, In x u -> ~ In x new) ->
           startswith u r = true -> startswith u s = true)).
  - trivial.
  - intros rest _ [|x u] Hu H; [reflexivity|].
    destruct new as [|n new']; [contradiction|].
    simpl in H. apply andb_true_iff in H as [H _].
    apply N.eqb_eq in H. subst n.
    exfalso. apply (Hu x); now left.
  - intros c s' _ IH [|x u] Hu H; [reflexivity|].
    simpl in H |- *. apply andb_true_iff in H as [Hx H].
    rewrite Hx. apply IH; [|exact H].
    intros y Hy. apply Hu. now right.
Qed.

End ReplaceLemmas.

Lemma contains_cons_inv (t r : pystr) (c : N) :
  contains t (c :: r) -> startswith t (c :: r) = true \/ contains t r.
Proof.
  intros H. apply containsb_spec in H. cbn [containsb] in H.
  apply orb_true_iff in H as [H|H]; [now left|].
  right. now apply containsb_spec.
Qed.

Lemma contains_app_r (t pre s : pystr) :
  contains t s -> contains t (pre ++ s).
Proof.
  intros (a & b & ->). exists (pre ++ a), b. now rewrite <- app_assoc.
Qed.

Lemma contains_infix (t pre s post : pystr) :
  contains t s -> contains t (pre ++ s ++ post).
Proof.
  intros (a & b & ->). exists (pre ++ a), (b ++ post).
  now rewrite <- !app_assoc.
Qed.

(** An occurrence of [t] cannot begin in characters that are not in [t]. *)
Lemma contains_past (t m b : pystr) :
  (forall x, In x m -> ~ In x t) ->
  contains t (m ++ b) -> t = [] \/ contains t b.
Proof.
  induction m as [|c m IH]; intros Hm H; [now right|].
  apply (@contains_across t [] (m ++ b) c) in H as [H|H].
  - left. now apply contains_nil_inv.
  - apply IH; [|exact H]. intros x Hx. apply Hm. now right.
  - apply Hm. now left.
Qed.

Lemma disjoint_spec (a b : pystr) :
  disjoint a b = true -> forall x, In x a -> ~ In x b.
Proof.
  unfold disjoint. rewrite forallb_forall. intros H x Ha Hb.
  specialize (H x Ha). apply negb_true_iff in H.
  assert (existsb (N.eqb x) b = true)
    by (apply existsb_exists; exists x; split; [exact Hb|apply N.eqb_refl]).
  congruence.
Qed.

Lemma disjoint_sym (a b : pystr) :
  (forall x, In x a -> ~ In x b) -> forall x, In x b -> ~ In x a.
Proof.
  intros H x Hb Ha. exact (H x Ha Hb).
Qed.

(** After [replace] no occurrence of [old] is left, when what replaces it
    is not empty and shares no character with it. *)
Lemma replace_removes (old new s : pystr) :
  old <> [] -> new <> [] -> (forall x, In x new -> ~ In x old) ->
  ~ contains old (replace old new s).
Proof.
  intros Hold Hnew Hdis.
  apply (replace_ind new Hold (fun _ r => ~ contains old r)).
  - intros H. now apply contains_nil_inv in H.
  - intros rest IH H.
    apply contains_past in H as [H|H]; [contradiction|contradiction|exact Hdis].
  - intros c s' E IH H.
    apply contains_cons_inv in H as [H|H]; [|contradiction].
    rewrite <- (replace_step new Hold _ _ E) in H.
    apply (replace_prefix Hold Hnew) in H; [congruence|].
    now apply disjoint_sym.
Qed.

(** [replace] brings in no occurrence of a string that shares no character
    with what is put in. *)
Lemma replace_keeps_out (old new t s : pystr) :
  old <> [] -> new <> [] -> (forall x, In x new -> ~ In x t) ->
  ~ contains t s -> ~ contains t (replace old new s).
Proof.
  intros Hold Hnew Hdis.
  apply (replace_ind new Hold
           (fun s r => ~ contains t s -> ~ contains t r)).
  - trivial.
  - intros rest IH Hs H.
    apply contains_past in H as [H|H]; [| |exact Hdis].
    + apply Hs. subst t. now exists [], (old ++ rest).
    + apply IH; [|exact H]. intros C. now apply Hs, contains_app_r.
  - intros c s' E IH Hs H.
    apply contains_cons_inv in H as [H|H].
    + rewrite <- (replace_step new Hold _ _ E) in H.
      apply (replace_prefix Hold Hnew) in H; [|now apply disjoint_sym].
      now apply Hs, containsb_spec, containsb_here.
    + apply IH; [|exact H]. intros C. now apply Hs, contains_cons.
Qed.

Lemma lstrip_suffix (s : pystr) : exists pre, s = pre ++ lstrip s.
Proof.
  induction s as [|c s [pre IH]]; [now exists []|].
  simpl. destruct (isspace c); [|now exists []].
  exists (c :: pre). simpl. now f_equal.
Qed.

Lemma lstrip_head (s : pystr) :
  match lstrip s with
  | [] => True
  | c :: _ => isspace c = false
  end.
Proof.
  induction s as [|c s IH]; [exact I|].
  simpl. destruct (isspace c) eqn:E; [exact IH|exact E].
Qed.

Lemma rstrip_prefix (s : pystr) : exists suf, s = rstrip s ++ suf.
Proof.
  unfold rstrip. destruct (lstrip_suffix (rev s)) as [pre H].
  exists (rev pre). rewrite <- rev_app_distr, <- H. now rewrite rev_involutive.
Qed.

(** [strip] cuts the string at both ends and nowhere else. *)
Lemma strip_infix (s : pystr) : exists pre suf, s = pre ++ strip s ++ suf.
Proof.
  unfold strip.
  destruct (lstrip_suffix s) as [pre Hpre].
  destruct (rstrip_prefix (lstrip s)) as [suf Hsuf].
  exists pre, suf. now rewrite <- Hsuf.
Qed.

Lemma contains_strip (t s : pystr) :
  contains t (strip s) -> contains t s.
Proof.
  intros H. destruct (strip_infix s) as (pre & suf & E).
  rewrite E. now apply contains_infix.
Qed.

Lemma strip_length (s : pystr) : List.length (strip s) <= List.length s.
Proof.
  destruct (strip_infix s) as (pre & suf & E).
  rewrite E at 2. rewrite !length_app. lia.
Qed.

Lemma strip_trimmed (s : pystr) : trimmed (strip s).
Proof.
  unfold trimmed, strip. split.
  - pose proof (lstrip_head s) as Hhead.
    destruct (rstrip_prefix (lstrip s)) as [suf E].
    destruct (rstrip (lstrip s)) as [|c r]; [exact I|].
    rewrite E in Hhead. exact Hhead.
  - unfold rstrip. rewrite rev_involutive. apply lstrip_head.
Qed.

Lemma strip_of_trimmed (s : pystr) : trimmed s -> strip s = s.
Proof.
  intros [Hhead Hlast].
  assert (Hl : forall x, match x with [] => True | c :: _ => isspace c = false end ->
                         lstrip x = x).
  { intros [|c x] H; [reflexivity|]. simpl. now rewrite H. }
  unfold strip, rstrip. rewrite (Hl s Hhead), (Hl (rev s) Hlast).
  apply rev_involutive.
Qed.

Lemma in_contains (t s : pystr) (x : N) :
  contains t s -> In x t -> In x s.
Proof.
  intros (pre & post & ->) Hx.
  apply in_or_app. right. apply in_or_app. now left.
Qed.

Ltac tag_gone :=
  first
    [ apply replace_removes;
      [discriminate|discriminate|apply disjoint_spec; reflexivity]
    | apply replace_keeps_out;
      [discriminate|discriminate|apply disjoint_spec; reflexivity|tag_gone] ].

(** X1.  Whatever the input, the result of [clean_html] holds none of the
    tag strings [</p>], [<code>], [</code>], [<strong>], [</strong>],
    [<em>], [</em>]: each is replaced after every replacement that could
    put it together, and the later replacements bring in none of its
    characters.  [<p>] is the exception, since deleting an occurrence can
    join a new one. *)
Theorem clean_html_leaves_no_replaced_tag :
  forall (rt : runtime) (s : pystr),
    Forall (fun tag => ~ contains tag (clean_html rt s)) replaced_tags /\
    clean_html rt (lit "<<p>p>") = lit "<p>".
Proof.
  intros rt s. split; [|reflexivity].
  unfold replaced_tags.
  repeat constructor; intros H; apply contains_strip in H; revert H;
    tag_gone.
Qed.

(** X2.  The result of [clean_html] has no whitespace at either end, so
    stripping it again changes nothing. *)
Theorem clean_html_is_trimmed :
  forall (rt : runtime) (s : pystr),
    trimmed (clean_html rt s) /\
    strip (clean_html rt s) = clean_html rt s.
Proof.
  intros rt s.
  assert (H : trimmed (clean_html rt s)) by apply strip_trimmed.
  split; [exact H|now apply strip_of_trimmed].
Qed.

(** X3.  A string with no ['&'] and no ['<'] holds no entity and no tag:
    [clean_html] only strips it. *)
Theorem clean_html_plain_text :
  forall (rt : runtime) (s : pystr),
    existsb (N.eqb 38) s = false ->
    existsb (N.eqb 60) s = false ->
    clean_html rt s = strip s.
Proof.
  intros rt s Hamp Hlt.
  assert (Hno : forall tag, In 60%N tag -> ~ contains tag s).
  { intros tag Htag C.
    assert (existsb (N.eqb 60) s = true); [|congruence].
    apply existsb_exists. exists 60%N. split; [|reflexivity].
    exact (@in_contains tag s 60%N C Htag). }
  unfold clean_html, unescape. rewrite Hamp.
  rewrite (@replace_absent (lit "<p>")) by (discriminate || (apply Hno; now left)).
  rewrite (@replace_absent (lit "</p>")) by (discriminate || (apply Hno; now left)).
  rewrite (@replace_absent (lit "<code>")) by (discriminate || (apply Hno; now left)).
  rewrite (@replace_absent (lit "</code>")) by (discriminate || (apply Hno; now left)).
  rewrite (@replace_absent (lit "<strong>")) by (discriminate || (apply Hno; now left)).
  rewrite (@replace_absent (lit "</strong>")) by (discriminate || (apply Hno; now left)).
  rewrite (@replace_absent (lit "<em>")) by (discriminate || (apply Hno; now left)).
  rewrite (@replace_absent (lit "</em>")) by (discriminate || (apply Hno; now left)).
  reflexivity.
Qed.

Lemma clean_html_plain_text_witness :
  clean_html acme (lit "  a > b, isn't it?  ") = strip (lit "  a > b, isn't it?  ").
Proof.
  apply (@clean_html_plain_text acme (lit "  a > b, isn't it?  "));
    reflexivity.
Defined.

(** X4.  [clean_html] never makes a text longer than it is once its
    entities are decoded: every tag is replaced by something shorter, and
    stripping only removes. *)
Theorem clean_html_never_longer :
  forall (rt : runtime) (s : pystr),
    List.length (clean_html rt s) <= List.length (unescape rt s).
Proof.
  intros rt s. unfold clean_html.
  eapply Nat.le_trans; [apply strip_length|].
  repeat (eapply Nat.le_trans;
          [apply replace_length; [discriminate|vm_compute; lia]|]).
  apply Nat.le_refl.
Qed.

(* ===================================================================== *)
(** ** Requests: no retry, no memory *)
(* ===================================================================== *)

Ltac one_request :=
  unfold stackoverflow_search_questions, stackoverflow_search_answers,
    stackoverflow_search_excerpts, stackoverflow_search_by_tags;
  rewrite one_request_run.

(** The requests of a call. *)
Lemma requests_are_issued (rt : runtime) (net : network) (t : tool)
      (arg : pystr) (tr : trace) :
  snd (call_tool rt net t arg tr) = tr ++ requests_issued rt net t arg tr.
Proof.
  destruct t; cbn [call_tool requests_issued tool_requests];
    try (one_request; reflexivity).
  rewrite fetch_run. cbv zeta.
  fold (question_request rt arg) (answers_request rt arg).
  destruct (reply_outcome (net tr (question_request rt arg)));
    cbn [snd]; [now rewrite <- app_assoc|reflexivity].
Qed.

(** X5.  A call of a tool issues the requests of the tool once, in order,
    and nothing else: a search tool issues its one request whatever the
    reply, and [fetch_question_by_id] issues the answers request exactly
    when the question request has succeeded.  No request is retried and a
    call never issues more than two. *)
Theorem requests_are_issued_once :
  forall (rt : runtime) (net : network) (t : tool) (arg : pystr) (tr : trace),
    snd (call_tool rt net t arg tr) = tr ++ requests_issued rt net t arg tr /\
    1 <= List.length (requests_issued rt net t arg tr) <= 2 /\
    (api_fails (net tr (question_request rt arg)) ->
     requests_issued rt net FetchQuestionById arg tr =
       [question_request rt arg]).
Proof.
  intros rt net t arg tr. split; [|split].
  - apply requests_are_issued.
  - destruct t; cbn [requests_issued tool_requests List.length]; try lia.
    destruct (reply_outcome _); cbn [List.length]; lia.
  - intros H. apply reply_outcome_fails in H as [e He].
    cbn [requests_issued]. now rewrite He.
Qed.

Lemma requests_are_issued_once_witness :
  requests_issued acme (scripted [status 500; ok (with_items [])])
                  FetchQuestionById (lit "42") [] =
    [question_request acme (lit "42")].
Proof.
  apply (proj2 (proj2 (requests_are_issued_once acme
           (scripted [status 500; ok (with_items [])])
           FetchQuestionById (lit "42") []))).
  simpl. left. unfold is_2xx. lia.
Defined.


(* ===================================================================== *)
(** ** What a failure and a malformed response look like *)
(* ===================================================================== *)



Lemma py_get_not_dict (data : value) (key : pystr) (default : value) :
  is_dict data = false ->
  py_get data key default = Raise (AttributeError (type_name data) (lit "get")).
Proof.
  now destruct data.
Qed.

(** X8.  A successful response whose JSON body is not an object (a list, a
    string, a number, [null]) is reported as an error: every tool returns
    ["HTTP Error: "] followed by the text of the [AttributeError] for the
    missing [get] of the body's type. *)
Theorem non_object_body_is_an_error :
  forall (rt : runtime) (net : network) (t : tool) (arg : pystr) (tr : trace)
         (data : value) (rest : list value),
    answered net tr (tool_requests rt t arg) (data :: rest) ->
    is_dict data = false ->
    fst (call_tool rt net t arg tr) =
      Return (lit "HTTP Error: " ++
              exc_str rt (AttributeError (type_name data) (lit "get"))).
Proof.
  intros rt net t arg tr data rest Hnet Hdata.
  rewrite (call_tool_answered _ _ _ _ _ _ Hnet). cbn [fst].
  apply answered_length in Hnet.
  destruct t; cbn [tool_requests List.length] in Hnet;
    destruct rest as [|a_data [|? ?]]; try discriminate Hnet;
    cbn [tool_body];
    unfold search_questions_body, search_answers_body, search_excerpts_body,
      fetch_question_body, search_by_tags_body;
    now rewrite py_get_not_dict.
Qed.

Lemma non_object_body_is_an_error_witness :
  fst (call_tool acme (scripted [ok (VList [full_question])])
                 SearchQuestions (lit "induction") []) =
    Return (lit "HTTP Error: error").
Proof.
  apply (@non_object_body_is_an_error acme
           (scripted [ok (VList [full_question])])
           SearchQuestions (lit "induction") [] (VList [full_question]) []).
  - by_script.
  - reflexivity.
Defined.

(** X9.  The four tools that test [not data.get("items")] return their
    empty-result message for every response object whose [items] is
    absent or false in the sense of Python: [null], [false], 0, the empty
    string, the empty list, the empty object. *)
Theorem falsy_items_give_sentinel :
  forall (rt : runtime) (net : network) (t : tool) (arg : pystr) (tr : trace)
         (d : list (pystr * value)) (rest : list value),
    t <> SearchAnswers ->
    answered net tr (tool_requests rt t arg) (VDict d :: rest) ->
    truthy (field d (lit "items") VNone) = false ->
    fst (call_tool rt net t arg tr) = Return (sentinel t).
Proof.
  intros rt net t arg tr d rest Ht Hnet Hitems.
  rewrite (call_tool_answered _ _ _ _ _ _ Hnet). cbn [fst].
  apply answered_length in Hnet.
  destruct t; try contradiction;
    cbn [tool_requests List.length] in Hnet;
    destruct rest as [|a_data [|? ?]]; try discriminate Hnet;
    cbn [tool_body sentinel];
    unfold search_questions_body, search_excerpts_body,
      fetch_question_body, search_by_tags_body;
    rewrite py_get_dict; cbn [obind]; now rewrite Hitems.
Qed.

Lemma falsy_items_give_sentinel_witness :
  fst (call_tool acme (scripted [ok (VDict [(lit "items", VNone)])])
                 SearchExcerpts (lit "lia") []) =
    Return (lit "No relevant excerpts found.").
Proof.
  apply (@falsy_items_give_sentinel acme
           (scripted [ok (VDict [(lit "items", VNone)])])
           SearchExcerpts (lit "lia") [] [(lit "items", VNone)] []).
  - discriminate.
  - by_script.
  - reflexivity.
Defined.

(** X10.  [search_answers] takes [data.get("items", [])] and iterates it
    without a test: when [items] is absent it returns
    ["No relevant answers found."], but when [items] is present and is
    [null], a boolean or a number the iteration raises and the result is
    ["HTTP Error: "] followed by the text of the [TypeError], where the
    other search tools return their empty-result message. *)
Theorem search_answers_on_missing_items :
  forall (rt : runtime) (net : network) (query : pystr) (tr : trace)
         (d : list (pystr * value)),
    answered net tr (tool_requests rt SearchAnswers query) [VDict d] ->
    (lookup d (lit "items") = None ->
     fst (stackoverflow_search_answers rt net query tr) =
       Return (lit "No relevant answers found.")) /\
    (forall v : value,
        lookup d (lit "items") = Some v ->
        not_iterable v = true ->
        fst (stackoverflow_search_answers rt net query tr) =
          Return (lit "HTTP Error: " ++
                  exc_str rt (NotIterable (type_name v)))).
Proof.
  intros rt net query tr d Hnet.
  change (stackoverflow_search_answers rt net query tr)
    with (call_tool rt net SearchAnswers query tr).
  rewrite (call_tool_answered _ _ _ _ _ _ Hnet). cbn [fst tool_body].
  unfold search_answers_body. rewrite py_get_dict. unfold field.
  split.
  - now intros ->.
  - intros v -> Hv. now destruct v.
Qed.

Lemma search_answers_on_missing_items_witness :
  fst (stackoverflow_search_answers acme
         (scripted [ok (VDict [(lit "items", VNone)])]) (lit "lia") []) =
    Return (lit "HTTP Error: error") /\
  fst (stackoverflow_search_answers acme
         (scripted [ok (VDict [(lit "has_more", VBool false)])]) (lit "lia") []) =
    Return (lit "No relevant answers found.").
Proof.
  split.
  - apply (proj2 (@search_answers_on_missing_items acme
             (scripted [ok (VDict [(lit "items", VNone)])]) (lit "lia") []
             [(lit "items", VNone)] ltac:(by_script)) VNone);
      reflexivity.
  - apply (proj1 (@search_answers_on_missing_items acme
             (scripted [ok (VDict [(lit "has_more", VBool false)])])
             (lit "lia") []
             [(lit "has_more", VBool false)] ltac:(by_script))).
    reflexivity.
Defined.

(** X11.  In [fetch_question_by_id] the answers count as none whenever
    [a_data.get("items", [])] is false in the sense of Python, so also
    for [null], 0 or an empty string: for a question with a title and a
    body the result is then the header of the question followed by
    ["_No answers found._"], not an error. *)
Theorem falsy_answers_are_no_answers :
  forall (rt : runtime) (net : network) (question_id : pystr) (tr : trace)
         (q_data question : value) (others : list value)
         (ad : list (pystr * value)),
    answered net tr (tool_requests rt FetchQuestionById question_id)
             [q_data; VDict ad] ->
    has_item_list q_data = true ->
    items_of q_data = question :: others ->
    item_ok [lit "title"; lit "body"] question = true ->
    truthy (field ad (lit "items") (VList [])) = false ->
    fst (stackoverflow_fetch_question_by_id rt net question_id tr) =
      Return (question_header rt question ++ NL ++ NL ++
              lit "_No answers found._").
Proof.
  intros rt net question_id tr q_data question others ad
         Hnet Hq Hitems Hquestion Hanswers.
  change (stackoverflow_fetch_question_by_id rt net question_id tr)
    with (call_tool rt net FetchQuestionById question_id tr).
  rewrite (call_tool_answered _ _ _ _ _ _ Hnet). cbn [fst tool_body].
  f_equal.
  destruct q_data as [| | | | | |qd]; try discriminate Hq.
  unfold has_item_list in Hq. unfold items_of in Hitems.
  unfold fetch_question_body. rewrite py_get_dict. unfold field at 1.
  unfold py_getitem.
  destruct (lookup qd (lit "items")) as [[| | | | |ql|]|];
    try discriminate Hq; try discriminate Hitems.
  subst ql. cbn [obind truthy negb py_first].
  unfold item_ok in Hquestion.
  destruct question as [| | | | | |q]; try discriminate Hquestion.
  simpl in Hquestion. rewrite !andb_true_iff in Hquestion.
  destruct Hquestion as (Ht & Hb & _).
  rewrite !py_get_dict. cbn [obind].
  rewrite (clean_text_field _ _ _ Ht). cbn [obind].
  rewrite (clean_text_field _ _ _ Hb). cbn [obind].
  rewrite Hanswers. unfold caught, question_header, as_dict.
  now rewrite <- !app_assoc.
Qed.

Lemma falsy_answers_are_no_answers_witness :
  fst (stackoverflow_fetch_question_by_id acme
         (scripted [ok (with_items [full_question]);
                    ok (VDict [(lit "items", VNone)])])
         (lit "42") []) =
    Return (lit "## How to *prove* it?" ++ NL ++ NL ++ lit "By induction." ++
            NL ++ NL ++ NL ++ NL ++ lit "_No answers found._").
Proof.
  apply (@falsy_answers_are_no_answers acme
           (scripted [ok (with_items [full_question]);
                      ok (VDict [(lit "items", VNone)])])
           (lit "42") [] (with_items [full_question]) full_question []
           [(lit "items", VNone)]).
  - by_script.
  - reflexivity.
  - reflexivity.
  - reflexivity.
  - reflexivity.
Defined.

(* ===================================================================== *)
(** ** One bad item fails the whole call *)
(* ===================================================================== *)

Section BadItems.
Variable rt : runtime.

(** A loop stops at the first element on which its body raises. *)
Lemma for_each_raises (S : Type) (body : value -> S -> outcome S)
      (good : value -> bool) :
  (forall x s, good x = false -> exists e, body x s = Raise e) ->
  forall xs s, forallb good xs = false ->
    exists e, for_each xs body s = Raise e.
Proof.
  intros Hbody. induction xs as [|x xs IH]; intros s Hxs; [discriminate|].
  simpl in Hxs |- *.
  destruct (good x) eqn:Hx.
  - destruct (body x s) as [s'|e]; [now apply IH|now exists e].
  - destruct (Hbody x s Hx) as [e ->]. now exists e.
Qed.

(** Cleaning a field that is present and is not a string raises. *)
Lemma clean_bad_field (d : list (pystr * value)) (key : pystr) :
  is_text d key = false ->
  exists e, call_clean_html rt (field d key (VStr [])) = Raise e.
Proof.
  unfold is_text, field.
  destruct (lookup d key) as [[| | | | |l|d']|]; try discriminate; intros _;
    simpl; try (eexists; reflexivity).
  - destruct (existsb _ l); eexists; reflexivity.
  - destruct (existsb _ d'); eexists; reflexivity.
Qed.

Ltac bad_item :=
  intros x acc Hx; unfold item_ok in Hx;
  destruct x as [| | | | | |d]; try (eexists; reflexivity);
  cbn [is_dict as_dict forallb andb] in Hx;
  unfold search_questions_item, search_answers_item, search_excerpts_item,
    search_by_tags_item;
  rewrite !py_get_dict; cbn [obind];
  repeat match type of Hx with
         | context [is_text d ?k] =>
             let E := fresh "E" in
             destruct (is_text d k) eqn:E;
             [ rewrite (clean_text_field rt _ _ E); cbn [obind andb] in Hx |- *
             | let e := fresh "e" in
               let He := fresh "He" in
               destruct (clean_bad_field _ _ E) as [e He]; rewrite He;
               now exists e ]
         end;
  discriminate Hx.

Lemma search_questions_item_bad (x : value) (acc : list pystr) :
  item_ok [lit "title"; lit "body"] x = false ->
  exists e, search_questions_item rt x acc = Raise e.
Proof.
  revert x acc. bad_item.
Qed.

Lemma search_excerpts_item_bad (x : value) (acc : list pystr) :
  item_ok [lit "title"; lit "excerpt"] x = false ->
  exists e, search_excerpts_item rt x acc = Raise e.
Proof.
  revert x acc. bad_item.
Qed.

Lemma search_by_tags_item_bad (x : value) (acc : list pystr) :
  item_ok [lit "title"] x = false ->
  exists e, search_by_tags_item rt x acc = Raise e.
Proof.
  revert x acc. bad_item.
Qed.

Lemma search_answers_item_bad (x : value) (acc : list pystr) :
  item_ok [lit "excerpt"] x = false ->
  exists e, search_answers_item rt x acc = Raise e.
Proof.
  revert x acc. bad_item.
Qed.

Lemma keep_answer_bad (x : value) (acc : list value) :
  is_dict x = false -> exists e, keep_answer x acc = Raise e.
Proof.
  intros Hx. unfold keep_answer. rewrite (py_get_not_dict _ _ _ Hx).
  eexists. reflexivity.
Qed.

Lemma listing_body_bad_item (data : value) (empty : pystr)
      (body : value -> list pystr -> outcome (list pystr))
      (good : value -> bool) :
  (forall x acc, good x = false -> exists e, body x acc = Raise e) ->
  has_item_list data = true ->
  forallb good (items_of data) = false ->
  exists e,
    (found <~ py_get data (lit "items") VNone ;;
     if negb (truthy found) then Return empty
     else
       items <~ py_getitem data (lit "items") ;;
       xs <~ py_iter items ;;
       results <~ for_each xs body [] ;;
       Return (join (NL ++ NL) results))
    = Raise e.
Proof.
  intros Hbody Hdata Hitems.
  destruct data as [| | | | | |d]; try discriminate Hdata.
  unfold has_item_list in Hdata. unfold items_of in Hitems.
  rewrite py_get_dict. unfold field, py_getitem.
  destruct (lookup d (lit "items")) as [[| | | | |l|]|];
    try discriminate Hdata; try discriminate Hitems.
  destruct l as [|x l]; [discriminate Hitems|].
  cbn [obind truthy negb py_iter].
  destruct (for_each_raises body good Hbody _ [] Hitems) as [e ->].
  now exists e.
Qed.

End BadItems.

(** X12.  The three tools that render every item of the response render
    all of them or none: when one item is not an object, or one of the
    text fields the tool cleans is present and is not a string, the whole
    result is an ["HTTP Error: "] string, and the entries of the items
    before it are lost. *)
Theorem one_bad_item_fails_the_call :
  forall (rt : runtime) (net : network) (t : tool) (arg : pystr) (tr : trace)
         (data : value),
    is_listing_tool t = true ->
    answered net tr (tool_requests rt t arg) [data] ->
    has_item_list data = true ->
    forallb (item_ok (text_keys t)) (items_of data) = false ->
    exists e : exn,
      fst (call_tool rt net t arg tr) =
        Return (lit "HTTP Error: " ++ exc_str rt e).
Proof.
  intros rt net t arg tr data Ht Hnet Hdata Hitems.
  rewrite (call_tool_answered _ _ _ _ _ _ Hnet). cbn [fst].
  assert (H : exists e, tool_body rt t [data] = Raise e).
  { destruct t; try discriminate Ht; cbn [tool_body text_keys] in *.
    - unfold search_questions_body.
      eapply listing_body_bad_item;
        [apply search_questions_item_bad|assumption|assumption].
    - unfold search_excerpts_body.
      eapply listing_body_bad_item;
        [apply search_excerpts_item_bad|assumption|assumption].
    - unfold search_by_tags_body.
      eapply listing_body_bad_item;
        [apply search_by_tags_item_bad|assumption|assumption]. }
  destruct H as [e ->]. now exists e.
Qed.

Lemma one_bad_item_fails_the_call_witness :
  exists e : exn,
    fst (call_tool acme
           (scripted [ok (with_items [full_question;
                                      VDict [(lit "title", VInt 7)]])])
           SearchQuestions (lit "induction") []) =
      Return (lit "HTTP Error: " ++ exc_str acme e).
Proof.
  apply (@one_bad_item_fails_the_call acme
           (scripted [ok (with_items [full_question;
                                      VDict [(lit "title", VInt 7)]])])
           SearchQuestions (lit "induction") []
           (with_items [full_question; VDict [(lit "title", VInt 7)]])).
  - reflexivity.
  - by_script.
  - reflexivity.
  - reflexivity.
Defined.

(* ===================================================================== *)
(** ** The error prefix tells failures from results *)
(* ===================================================================== *)

Lemma no_error_start_spec (s : pystr) :
  no_error_start s -> startswith (lit "HTTP Error: ") s = false.
Proof.
  destruct s as [|c s]; [reflexivity|]. intros H.
  change (lit "HTTP Error: ") with (72%N :: lit "TTP Error: ").
  cbn [startswith]. apply N.eqb_neq in H.
  now rewrite N.eqb_sym, H.
Qed.

Lemma join_no_error (sep : pystr) (results : list pystr) :
  no_error_head results -> no_error_start (join sep results).
Proof.
  destruct results as [|r rest]; [trivial|]. intros [Hr Hstart].
  destruct r as [|c r]; [contradiction|].
  now destruct rest.
Qed.

Lemma no_error_head_app (results : list pystr) (entry : pystr) :
  entry <> [] -> no_error_start entry ->
  no_error_head results -> no_error_head (results ++ [entry]).
Proof.
  intros He Hs. now destruct results.
Qed.

(** What holds before a loop and is kept by its body holds after it. *)
Lemma for_each_invariant (S : Type) (I : S -> Prop)
      (body : value -> S -> outcome S) :
  (forall x s s', body x s = Return s' -> I s -> I s') ->
  forall xs s s', for_each xs body s = Return s' -> I s -> I s'.
Proof.
  intros Hbody. induction xs as [|x xs IH]; intros s s' H Hs; simpl in H.
  - now injection H as <-.
  - destruct (body x s) as [s1|e] eqn:E; [|discriminate H].
    apply (IH _ _ H). exact (Hbody _ _ _ E Hs).
Qed.

Ltac crack H :=
  repeat match type of H with
         | obind ?o _ = Return _ =>
             let E := fresh "E" in
             destruct o eqn:E; cbn [obind] in H; [|discriminate H]
         | (if ?b then _ else _) = Return _ =>
             let E := fresh "E" in destruct b eqn:E
         | match ?l with [] => _ | _ :: _ => _ end = Return _ =>
             let E := fresh "E" in destruct l eqn:E
         end.

Ltac entry_kept :=
  intros x results results' H Hresults;
  unfold search_questions_item, search_answers_item, search_excerpts_item,
    search_by_tags_item in H;
  crack H; injection H as <-;
  apply no_error_head_app; [simpl; discriminate|simpl; discriminate|assumption].

Section Results.
Variable rt : runtime.

Lemma search_questions_item_kept :
  forall x results results',
    search_questions_item rt x results = Return results' ->
    no_error_head results -> no_error_head results'.
Proof. entry_kept. Qed.

Lemma search_answers_item_kept :
  forall x results results',
    search_answers_item rt x results = Return results' ->
    no_error_head results -> no_error_head results'.
Proof. entry_kept. Qed.

Lemma search_excerpts_item_kept :
  forall x results results',
    search_excerpts_item rt x results = Return results' ->
    no_error_head results -> no_error_head results'.
Proof. entry_kept. Qed.

Lemma search_by_tags_item_kept :
  forall x results results',
    search_by_tags_item rt x results = Return results' ->
    no_error_head results -> no_error_head results'.
Proof. entry_kept. Qed.

Lemma fetch_answer_kept :
  forall x response response',
    fetch_answer rt x response = Return response' ->
    (exists tl, response = 35%N :: tl) -> exists tl, response' = 35%N :: tl.
Proof.
  intros x response response' H [tl ->].
  unfold fetch_answer in H. crack H. injection H as <-.
  eexists. reflexivity.
Qed.

Ltac listed item_kept :=
  intros data s H;
  unfold search_questions_body, search_answers_body, search_excerpts_body,
    search_by_tags_body in H;
  crack H; injection H as <-;
  try (simpl; discriminate);
  apply join_no_error;
  match goal with
  | E : for_each _ _ [] = Return _ |- _ =>
      exact (for_each_invariant no_error_head _ item_kept _ _ E I)
  end.

Lemma search_questions_body_result :
  forall data s, search_questions_body rt data = Return s -> no_error_start s.
Proof. listed search_questions_item_kept. Qed.

Lemma search_answers_body_result :
  forall data s, search_answers_body rt data = Return s -> no_error_start s.
Proof. listed search_answers_item_kept. Qed.

Lemma search_excerpts_body_result :
  forall data s, search_excerpts_body rt data = Return s -> no_error_start s.
Proof. listed search_excerpts_item_kept. Qed.

Lemma search_by_tags_body_result :
  forall data s, search_by_tags_body rt data = Return s -> no_error_start s.
Proof. listed search_by_tags_item_kept. Qed.

Lemma fetch_question_body_result :
  forall q_data a_data s,
    fetch_question_body rt q_data a_data = Return s -> no_error_start s.
Proof.
  intros q_data a_data s H. unfold fetch_question_body in H.
  crack H.
  - injection H as <-. simpl. discriminate.
  - destruct (for_each_invariant (fun r => exists tl, r = 35%N :: tl)
                _ fetch_answer_kept _ _ H) as [tl ->];
      [eexists; reflexivity|].
    simpl. discriminate.
  - injection H as <-. simpl. discriminate.
Qed.

(** No result of a body begins with the error prefix. *)
Lemma tool_body_result (t : tool) (datas : list value) (s : pystr) :
  tool_body rt t datas = Return s ->
  startswith (lit "HTTP Error: ") s = false.
Proof.
  intros H. apply no_error_start_spec.
  destruct t; cbn [tool_body] in H;
    destruct datas as [|d1 [|d2 [|? ?]]];
    try (injection H as <-; exact I).
  - exact (search_questions_body_result _ H).
  - exact (search_answers_body_result _ H).
  - exact (search_excerpts_body_result _ H).
  - exact (fetch_question_body_result _ _ H).
  - exact (search_by_tags_body_result _ H).
Qed.

End Results.

(** X13.  When the requests of a call succeed, its result begins with
    ["HTTP Error: "] exactly when the handling of the data raised: a
    rendered result or an empty-result message never begins with the
    prefix, whatever the titles, bodies and links hold.  In particular a
    well-formed response is never reported as an error. *)
Theorem error_prefix_means_failure :
  forall (rt : runtime) (net : network) (t : tool) (arg : pystr) (tr : trace)
         (datas : list value),
    answered net tr (tool_requests rt t arg) datas ->
    exists s : pystr,
      fst (call_tool rt net t arg tr) = Return s /\
      (startswith (lit "HTTP Error: ") s = true <->
       exists e, tool_body rt t datas = Raise e) /\
      (well_formed t datas = true ->
       startswith (lit "HTTP Error: ") s = false).
Proof.
  intros rt net t arg tr datas Hnet.
  rewrite (call_tool_answered _ _ _ _ _ _ Hnet). cbn [fst].
  eexists. split; [reflexivity|].
  destruct (tool_body rt t datas) as [s|e] eqn:E; cbn [caught].
  - pose proof (tool_body_result _ _ _ E) as Hs. split.
    + rewrite Hs. split; [discriminate|]. intros [e He]. discriminate He.
    + intros _. exact Hs.
  - split.
    + split; [intros _; now exists e|]. intros _. apply startswith_app.
    + intros Hwf. apply (tool_body_well_formed rt) in Hwf. congruence.
Qed.

Lemma error_prefix_means_failure_witness :
  exists s : pystr,
    fst (call_tool acme
           (scripted [ok (with_items
              [VDict [(lit "title", VStr (lit "HTTP Error: 404 on login"))]])])
           SearchByTags (lit "http") []) = Return s /\
    startswith (lit "HTTP Error: ") s = false.
Proof.
  destruct (@error_prefix_means_failure acme
              (scripted [ok (with_items
                 [VDict [(lit "title", VStr (lit "HTTP Error: 404 on login"))]])])
              SearchByTags (lit "http") []
              [with_items
                 [VDict [(lit "title", VStr (lit "HTTP Error: 404 on login"))]]]
              ltac:(by_script)) as (s & Hs & _ & Hwf).
  exists s. split; [exact Hs|]. apply Hwf. reflexivity.
Defined.

(** X14.  [search_answers] looks at the [item_type] of every item before
    it renders any: when the response has an item list and one item is not
    an object, even one that is no answer, or the excerpt of an answer is
    present and is not a string, the whole result is an ["HTTP Error: "]
    string. *)
Theorem search_answers_needs_well_formed_items :
  forall (rt : runtime) (net : network) (query : pystr) (tr : trace)
         (data : value),
    answered net tr (tool_requests rt SearchAnswers query) [data] ->
    has_item_list data = true ->
    well_formed SearchAnswers [data] = false ->
    exists e : exn,
      fst (stackoverflow_search_answers rt net query tr) =
        Return (lit "HTTP Error: " ++ exc_str rt e).
Proof.
  intros rt net query tr data Hnet Hdata Hwf.
  change (stackoverflow_search_answers rt net query tr)
    with (call_tool rt net SearchAnswers query tr).
  rewrite (call_tool_answered _ _ _ _ _ _ Hnet). cbn [fst tool_body].
  cbn [well_formed] in Hwf. rewrite Hdata in Hwf. cbn [andb] in Hwf.
  assert (H : exists e, search_answers_body rt data = Raise e).
  { destruct (forallb is_dict (items_of data)) eqn:Hdicts.
    - rewrite (search_answers_body_filter rt _ Hdata Hdicts).
      cbn [andb] in Hwf.
      destruct (filter is_answer (items_of data)) as [|a answers];
        [discriminate Hwf|].
      destruct (for_each_raises (search_answers_item rt)
                  (item_ok [lit "excerpt"])
                  (search_answers_item_bad rt) _ [] Hwf) as [e ->].
      now exists e.
    - destruct data as [| | | | | |d]; try discriminate Hdata.
      unfold has_item_list in Hdata. unfold items_of in Hdicts.
      unfold search_answers_body. rewrite py_get_dict. unfold field.
      destruct (lookup d (lit "items")) as [[| | | | |l|]|];
        try discriminate Hdata; try discriminate Hdicts.
      cbn [obind py_iter].
      destruct (for_each_raises keep_answer is_dict keep_answer_bad _ []
                  Hdicts) as [e ->].
      now exists e. }
  destruct H as [e ->]. now exists e.
Qed.

Lemma search_answers_needs_well_formed_items_witness :
  exists e : exn,
    fst (stackoverflow_search_answers acme
           (scripted [ok (with_items [answer_item; VStr (lit "note")])])
           (lit "lia") []) =
      Return (lit "HTTP Error: " ++ exc_str acme e).
Proof.
  apply (@search_answers_needs_well_formed_items acme
           (scripted [ok (with_items [answer_item; VStr (lit "note")])])
           (lit "lia") [] (with_items [answer_item; VStr (lit "note")])).
  - by_script.
  - reflexivity.
  - reflexivity.
Defined.

(** X15.  Every request a tool issues goes to a URL that begins with
    [BASE_URL] and carries the [team] parameter set to [TEAM]; the token
    is sent nowhere else.  The question id is put into the URL as it is
    given: the answers URL is the question URL followed by
    [/answers]. *)
Theorem requests_stay_on_base_url :
  forall (rt : runtime) (net : network) (t : tool) (arg : pystr) (tr : trace),
    (exists issued : list request,
        snd (call_tool rt net t arg tr) = tr ++ issued /\
        Forall (fun req =>
                  startswith (fmt_env (BASE_URL rt)) (req_url req) = true /\
                  lookup (req_params req) (lit "team") =
                    Some (env_value (TEAM rt))) issued) /\
    req_url (question_request rt arg) =
      fmt_env (BASE_URL rt) ++ lit "/questions/" ++ arg /\
    req_url (answers_request rt arg) =
      req_url (question_request rt arg) ++ lit "/answers".
Proof.
  intros rt net t arg tr. split; [|split].
  - exists (requests_issued rt net t arg tr). split.
    + apply requests_are_issued.
    + destruct t; cbn [requests_issued tool_requests];
        try destruct (reply_outcome _);
        repeat constructor; try apply startswith_app.
  - reflexivity.
  - cbn [question_request answers_request api_request req_url].
    unfold q_url, a_url. now rewrite <- !app_assoc.
Qed.
